(** * Numitron clock: segment tables, frame encoders and display transport

    A shallow embedding of the display core of the Numitron clock sketches
    (the six-digit NTP clock and the "Step5" simple six-digit clock), with
    the properties stated about it.

    Conventions of the embedding:
    - a C [int] or [byte] is a [Z]; the arithmetic met here stays far from
      the limits of a 32-bit [int], [/] and [%] are [Z.quot] and [Z.rem]
      (C truncates towards zero);
    - a [char] is an [ascii], a C string is a [string] whose terminating
      NUL is implicit (a NUL inside it ends it early, see [strlen]);
    - the sketch's global variables and everything it sends to the
      hardware form a record [machine], threaded through a state monad;
    - an array access is written as in the source, with the index it
      computes.  An index outside the array is undefined in C++; on the
      ESP8266 the load or store simply hits the neighbouring memory.  The
      model does the same (field [outside]) and records every such access
      in the field [stray], so that "no access leaves its array" is the
      statement that [stray] did not grow. *)

From Stdlib Require Import ZArith Ascii String List Lia Bool.
From stdpp Require Import base numbers list.
Import ListNotations.
Local Open Scope Z_scope.

(** ** Bytes, characters and C strings *)

Definition byte := Z.

(** Binary literals of the source ([0b11100111]) are kept readable:
    [bin "11100111"] is the number those digits denote. *)
Fixpoint bin_from (acc : Z) (s : string) : Z :=
  match s with
  | EmptyString => acc
  | String c s' => bin_from (2 * acc + (if Ascii.eqb c "1"%char then 1 else 0)) s'
  end.

Definition bin (s : string) : byte := bin_from 0 s.

Definition NUL : ascii := Ascii.zero.

(** [strlen(s)]: the number of characters before the first NUL. *)
Fixpoint strlen_nat (s : string) : nat :=
  match s with
  | EmptyString => O
  | String c s' => if Ascii.eqb c NUL then O else S (strlen_nat s')
  end.

Definition strlen (s : string) : Z := Z.of_nat (strlen_nat s).

(** [s[i]] for a C string: the character at [i], the terminator behind it. *)
Definition char_at (s : string) (i : Z) : ascii :=
  match String.get (Z.to_nat i) s with
  | Some c => c
  | None => NUL
  end.

(** ** The machine: globals, outputs, and the record of stray accesses *)

Inductive pin := OE | LED_PIN | SCK | MOSI | LATCH | SWITCH.

Definition HIGH : Z := 1.
Definition LOW : Z := 0.

Inductive event :=
| EvTransfer (b : byte)               (* SPI.transfer(b) *)
| EvDigital (p : pin) (v : Z)         (* digitalWrite(p,v) *)
| EvAnalog (p : pin) (duty : Z).      (* analogWrite(p,duty) *)

Inductive array := SegData | Digit | Data | Segments | Tube.

Inductive direction := Rd | Wr.

Definition access : Type := array * Z * direction.

Record machine := Machine {
  digit : list byte;                  (* byte digit[6] (tube[6] in Step5) *)
  useLocalTime : bool;                (* bool useLocalTime *)
  out : list event;                   (* everything sent out, oldest first *)
  outside : array -> Z -> byte;       (* memory around the arrays *)
  stray : list access                 (* out-of-bounds accesses, oldest first *)
}.

Definition set_digit (d : list byte) (st : machine) : machine :=
  Machine d (useLocalTime st) (out st) (outside st) (stray st).

Definition emit (e : event) (st : machine) : machine :=
  Machine (digit st) (useLocalTime st) (out st ++ [e]) (outside st) (stray st).

Definition array_eqb (a b : array) : bool :=
  match a, b with
  | SegData, SegData | Digit, Digit | Data, Data
  | Segments, Segments | Tube, Tube => true
  | _, _ => false
  end.

Definition poke (a : array) (i : Z) (v : byte) (st : machine) : machine :=
  Machine (digit st) (useLocalTime st) (out st)
          (fun a' i' => if array_eqb a a' && (i =? i') then v else outside st a' i')
          (stray st).

Definition flag (x : access) (st : machine) : machine :=
  Machine (digit st) (useLocalTime st) (out st) (outside st) (stray st ++ [x]).

(** ** The state monad of the sketch *)

Definition M (A : Type) : Type := machine -> A * machine.

#[global] Instance M_ret : MRet M := fun A x st => (x, st).

#[global] Instance M_bind : MBind M :=
  fun A B f m st => let (x, st') := m st in f x st'.

Definition exec {A} (m : M A) (st : machine) : machine := snd (m st).
Definition eval {A} (m : M A) (st : machine) : A := fst (m st).

Definition in_bounds {A} (l : list A) (i : Z) : bool :=
  (0 <=? i) && (i <? Z.of_nat (length l)).

(** [tbl[i]] for a constant table. *)
Definition load (a : array) (tbl : list byte) (i : Z) : M byte := fun st =>
  if in_bounds tbl i then (nth (Z.to_nat i) tbl 0, st)
  else (outside st a i, flag (a, i, Rd) st).

(** [digit[i]] read. *)
Definition load_digit (a : array) (i : Z) : M byte := fun st =>
  load a (digit st) i st.

(** [digit[i] = v]. *)
Definition store_digit (a : array) (i : Z) (v : byte) : M unit := fun st =>
  if in_bounds (digit st) i
  then (tt, set_digit (<[Z.to_nat i := v]> (digit st)) st)
  else (tt, flag (a, i, Wr) (poke a i v st)).

Definition SPI_transfer (b : byte) : M unit := fun st => (tt, emit (EvTransfer b) st).
Definition digitalWrite (p : pin) (v : Z) : M unit := fun st => (tt, emit (EvDigital p v) st).
Definition analogWrite (p : pin) (v : Z) : M unit := fun st => (tt, emit (EvAnalog p v) st).

(** [for (int i = hi; i >= lo; --i) body(i)]: the body neither changes [i]
    nor the bounds, so the loop runs for [i = hi, hi-1, ..., lo]. *)
Fixpoint for_down_from (n : nat) (i : Z) (body : Z -> M unit) : M unit :=
  match n with
  | O => mret tt
  | S n' => body i;; for_down_from n' (i - 1) body
  end.

Definition for_downto (hi lo : Z) (body : Z -> M unit) : M unit :=
  for_down_from (Z.to_nat (hi - lo + 1)) hi body.

(** [for (int i = lo; i < hi; i++) body(i)]. *)
Fixpoint for_up_from (n : nat) (i : Z) (body : Z -> M unit) : M unit :=
  match n with
  | O => mret tt
  | S n' => body i;; for_up_from n' (i + 1) body
  end.

Definition for_upto (lo hi : Z) (body : Z -> M unit) : M unit :=
  for_up_from (Z.to_nat (hi - lo)) lo body.

(** [delay(ms)]: time is not part of the machine, a delay changes nothing
    in it. *)
Definition delay (ms : Z) : M unit := mret tt.

(** Read and write of the global [useLocalTime]. *)
Definition get_useLocalTime : M bool := fun st => (useLocalTime st, st).

Definition set_useLocalTime (b : bool) : M unit := fun st =>
  (tt, Machine (digit st) b (out st) (outside st) (stray st)).

(** [writeByte(b)] of the single-tube sketches; [b] is converted to a
    [byte] on the way in. *)
Definition writeByte (b : Z) : M unit :=
  SPI_transfer (b mod 256);;
  digitalWrite LATCH HIGH;;
  digitalWrite LATCH LOW.

(** ** The six-digit clock *)

Module Clock.

(** The options of the sketch that the display code reads
    ([#define LOCAL_FORMAT_12HR] and so on). *)
Record config := Config {
  LOCAL_FORMAT_12HR : bool;
  UTC_FORMAT_12HR : bool;
  HOUR_LEADING_ZERO : bool
}.

(** The values the sketch is distributed with. *)
Definition sketch : config :=
  {| LOCAL_FORMAT_12HR := true; UTC_FORMAT_12HR := false; HOUR_LEADING_ZERO := false |}.

Definition dquote : ascii := "034"%char.

Definition knownChars : string :=
  ("0123456789AbCcdEFGHhIiJLlNnOoPqrStUuyZ _-=?[]'" ++ String dquote "*")%string.

Definition segData : list byte := [
(*     dcagxfeb *)
  bin "11100111";  (* 0 *)
  bin "01000001";  (* 1 *)
  bin "10110011";  (* 2 *)
  bin "11110001";  (* 3 *)
  bin "01010101";  (* 4 *)
  bin "11110100";  (* 5 *)
  bin "11110110";  (* 6 *)
  bin "01100001";  (* 7 *)
  bin "11110111";  (* 8 *)
  bin "11110101";  (* 9 *)
  bin "01110111";  (* A *)
  bin "11010110";  (* b *)
  bin "10100110";  (* C *)
  bin "10010010";  (* c *)
  bin "11010011";  (* d *)
  bin "10110110";  (* E *)
  bin "00110110";  (* F *)
  bin "11100110";  (* G *)
  bin "01010111";  (* H *)
  bin "01010110";  (* h *)
  bin "00000110";  (* I *)
  bin "01000000";  (* i *)
  bin "11000001";  (* J *)
  bin "10000110";  (* L *)
  bin "10000010";  (* l *)
  bin "01100111";  (* N *)
  bin "01010010";  (* n *)
  bin "11100111";  (* O *)
  bin "11010010";  (* o *)
  bin "00110111";  (* P *)
  bin "01110101";  (* q *)
  bin "00010010";  (* r *)
  bin "11110100";  (* S *)
  bin "10010110";  (* t *)
  bin "11000111";  (* U *)
  bin "11000010";  (* u *)
  bin "11010101";  (* y *)
  bin "10110011";  (* Z *)
  bin "00000000";  (* (space) *)
  bin "10000000";  (* _ *)
  bin "00010000";  (* - *)
  bin "10010000";  (* = *)
  bin "00110011";  (* ? *)
  bin "10100110";  (* [ *)
  bin "11100001";  (* ] *)
  bin "00000100";  (* ' *)
  bin "00000101";  (* double quote *)
  bin "00110101";  (* * (degree) *)
  bin "00000000"   (* (not found) *)
].

(** The [while] of [alpha]: from index [i], advance as long as
    [i < strlen(knownChars) && c != knownChars[i]]; [n] bounds the number
    of steps still allowed. *)
Fixpoint alpha_search (n : nat) (c : ascii) (i : Z) : Z :=
  match n with
  | O => i
  | S n' =>
      if (i <? strlen knownChars) && negb (Ascii.eqb c (char_at knownChars i))
      then alpha_search n' c (i + 1)
      else i
  end.

Definition alpha (c : ascii) : M byte :=
  let i := alpha_search (strlen_nat knownChars) c 0 in
  load SegData segData i.

Definition writeDisplay : M unit :=
  for_downto 6 0 (fun i => b ← load_digit Digit i; SPI_transfer b);;
  digitalWrite LATCH HIGH;;
  digitalWrite LATCH LOW.

Definition enableDisplay (on : bool) : M unit :=
  digitalWrite OE (if on then 0 else 1).

Definition data : list byte := [255; 172; 160; 140; 120; 100; 80; 60; 40; 20; 0].

Definition setBrightness (level : Z) : M unit :=
  if (0 <=? level) && (level <=? 10)
  then (d ← load Data data level; analogWrite OE d)
  else mret tt.

Section Encoders.

Variable cfg : config.

Definition mode12h : M bool := fun st =>
  ((useLocalTime st && LOCAL_FORMAT_12HR cfg)
   || (negb (useLocalTime st) && UTC_FORMAT_12HR cfg), st).

(** [showTime(t)], given [h = hour(t)], [m = minute(t)], [s = second(t)]
    (the accessors belong to the ezTime library). *)
Definition showTime (h m s : Z) : M unit :=
  mode12h ≫= fun twelve : bool =>
  let h := if twelve
           then (let h := if h =? 0 then 12 else h in
                 if 12 <? h then h - 12 else h)
           else h in
  (if (h <? 10) && negb (HOUR_LEADING_ZERO cfg) then mode12h else mret false)
  ≫= fun blank : bool =>
  (if blank then store_digit Digit 0 0
   else (v ← load SegData segData (h ÷ 10); store_digit Digit 0 v));;
  v ← load SegData segData (Z.rem h 10); store_digit Digit 1 v;;
  v ← load SegData segData (m ÷ 10); store_digit Digit 2 v;;
  v ← load SegData segData (Z.rem m 10); store_digit Digit 3 v;;
  v ← load SegData segData (s ÷ 10); store_digit Digit 4 v;;
  v ← load SegData segData (Z.rem s 10); store_digit Digit 5 v;;
  writeDisplay.

End Encoders.

(** [showDate(t)], given [mo = month(t)], [d = day(t)], [yr = year(t)]. *)
Definition showDate (mo d yr : Z) : M unit :=
  let m := mo in
  let y := yr - 2000 in
  v ← load SegData segData (m ÷ 10); store_digit Digit 0 v;;
  v ← load SegData segData (Z.rem m 10); store_digit Digit 1 v;;
  v ← load SegData segData (d ÷ 10); store_digit Digit 2 v;;
  v ← load SegData segData (Z.rem d 10); store_digit Digit 3 v;;
  v ← load SegData segData (y ÷ 10); store_digit Digit 4 v;;
  v ← load SegData segData (Z.rem y 10); store_digit Digit 5 v;;
  writeDisplay.

Definition showString (str : string) : M unit :=
  for_upto 0 (strlen str) (fun i => v ← alpha (char_at str i); store_digit Digit i v);;
  writeDisplay.

(** [switchPressed()], given the value [reading] that
    [analogRead(SWITCH)] returns. *)
Definition switchPressed (reading : Z) : bool := 250 <? reading.

(** [startupScreen()]; [reading] is the switch reading at its entry. *)
Definition startupScreen (reading : Z) : M unit :=
  if switchPressed reading then mret tt
  else
    for_upto 0 9 (fun i =>
      for_upto 0 6 (fun d => v ← load SegData segData i; store_digit Digit d v);;
      writeDisplay;;
      delay 150);;
    for_upto 0 4 (fun _ =>
      enableDisplay false;; delay 250;;
      enableDisplay true;; delay 750);;
    delay 500;;
    showString "brucE ";; delay 2000;;
    showString "  HALL";; delay 2000.

Definition APCallback : M unit := showString "  CELL".

(** [handleSwitch()]; [reading] is the switch reading taken after the first
    second, [local] and [utc] are (month, day, year) of [local.now()] and of
    [now()]. *)
Definition handleSwitch (reading : Z) (local utc : Z * Z * Z) : M unit :=
  showString "  dAtE";;
  delay 1000;;
  if negb (switchPressed reading)
  then
    (get_useLocalTime ≫= fun u : bool =>
     let '(mo, d, yr) := if u then local else utc in showDate mo d yr);;
    delay 3000
  else
    (get_useLocalTime ≫= fun u : bool => set_useLocalTime (negb u));;
    (get_useLocalTime ≫= fun u : bool =>
     if u then showString " LOCAL" else showString "   UtC");;
    delay 2000.

End Clock.

(** ** The "Step5" simple six-digit clock *)

Module Step5.

Definition FORMAT_12HR : bool := true.

(** [byte tube[6]] is the frame buffer of this sketch. *)
Definition tube : machine -> list byte := digit.

Definition segments : list byte :=
  [0xE7; 0x41; 0xB3; 0xF1; 0x55;      (* segments for digits 0..4 *)
   0xF4; 0xF6; 0x61; 0xF7; 0xF5].     (* segments for digits 5..9 *)

Definition enableDisplay (on : bool) : M unit :=
  digitalWrite OE (if on then 0 else 1).

Definition writeDisplay : M unit :=
  for_downto 6 0 (fun i => b ← load_digit Tube i; SPI_transfer b);;
  digitalWrite LATCH HIGH;;
  digitalWrite LATCH LOW.

Definition showTime (h m s : Z) : M unit :=
  let h := if FORMAT_12HR
           then (let h := if h =? 0 then 12 else h in
                 if 12 <? h then h - 12 else h)
           else h in
  v ← load Segments segments (h ÷ 10); store_digit Tube 0 v;;
  v ← load Segments segments (Z.rem h 10); store_digit Tube 1 v;;
  v ← load Segments segments (m ÷ 10); store_digit Tube 2 v;;
  v ← load Segments segments (Z.rem m 10); store_digit Tube 3 v;;
  v ← load Segments segments (s ÷ 10); store_digit Tube 4 v;;
  v ← load Segments segments (Z.rem s 10); store_digit Tube 5 v;;
  writeDisplay.

End Step5.

(** ** The single-tube sketches *)

(** Step1, pattern display: [byte pattern], inverted once per loop. *)
Module Step1.

Definition pattern0 : byte := bin "00010000".

(** [pattern = ~pattern]: complement as [int], stored back into a [byte]. *)
Definition invert (pattern : byte) : byte := Z.lnot pattern mod 256.

(** One pass of [loop()]; the new value of [pattern] is returned. *)
Definition loop (pattern : byte) : M byte :=
  writeByte pattern;;
  delay 1000;;
  mret (invert pattern).

End Step1.

(** Step2, brightness control: a PWM sweep on the output-enable pin. *)
Module Step2.

Definition loop : M unit :=
  for_upto 0 255 (fun brightness => analogWrite OE brightness;; delay 10);;
  for_downto 255 0 (fun brightness => analogWrite OE brightness;; delay 10).

End Step2.

(** Step3 and Step4: one tube showing digits. *)
Module Step4.

Definition FORMAT_12HR : bool := true.
Definition DISPLAY_AMPM : bool := true.

Definition segments : list byte :=
  [0xE7; 0x41; 0xB3; 0xF1; 0x55;      (* segments for digits 0..4 *)
   0xF4; 0xF6; 0x61; 0xF7; 0xF5].     (* segments for digits 5..9 *)

Definition displayDigit (d : Z) : M unit :=
  v ← load Segments segments d; writeByte v.

Definition displayOff : M unit := writeByte 0.

Definition pause : M unit :=
  delay 460;;
  displayOff;;
  delay 40.

(** [showTime(t)], given [hr = hour(t)] and [mi = minute(t)]. *)
Definition showTime (hr mi : Z) : M unit :=
  let m := mi in
  let h := if FORMAT_12HR
           then (let h := if hr =? 0 then 12 else hr in
                 if 12 <? h then h - 12 else h)
           else hr in
  displayDigit (h ÷ 10);; pause;;
  displayDigit (Z.rem h 10);; pause;;
  displayDigit (m ÷ 10);; pause;;
  displayDigit (Z.rem m 10);; pause;;
  if FORMAT_12HR && DISPLAY_AMPM
  then (if hr <? 12 then writeByte (bin "01110111") else writeByte (bin "00110111"));;
       pause
  else mret tt.

End Step4.

(** The TLC5916 test: eight LEDs, a pattern walking to the left. *)
Module TLC5916.

Definition pattern0 : Z := bin "00001111".

(** [pattern <<= 1; if (pattern>255) pattern-=255;] on the [int pattern]. *)
Definition advance (pattern : Z) : Z :=
  let pattern := Z.shiftl pattern 1 in
  if 255 <? pattern then pattern - 255 else pattern.

(** One pass of [loop()]; the new value of [pattern] is returned. *)
Definition loop (pattern : Z) : M Z :=
  writeByte pattern;;
  let pattern := advance pattern in
  delay 100;;
  mret pattern.

End TLC5916.

(** ** Auxiliary notions used by the statements *)

(** The machine right after reset: globals zeroed, [useLocalTime] at its
    initialiser, nothing sent yet. *)
Definition boot : machine :=
  Machine [0; 0; 0; 0; 0; 0] true [] (fun _ _ => 0) [].

(** Entry [d] of [segData]: for [0 <= d <= 9] the pattern of digit [d]. *)
Definition seg (d : Z) : byte := nth (Z.to_nat d) Clock.segData 0.

(** The character of a decimal digit, ['0' + d]. *)
Definition digit_char (d : Z) : ascii := ascii_of_N (Z.to_N (48 + d)).

(** Membership in the declared alphabet. *)
Definition known (c : ascii) : bool :=
  existsb (Ascii.eqb c) (list_ascii_of_string Clock.knownChars).

(** The index at which the scan of [alpha] stops. *)
Definition alpha_index (c : ascii) : Z :=
  Clock.alpha_search (strlen_nat Clock.knownChars) c 0.

(** Entry [level] of the brightness table. *)
Definition duty (level : Z) : byte := nth (Z.to_nat level) Clock.data 0.

Definition latch_pulse : list event := [EvDigital LATCH HIGH; EvDigital LATCH LOW].

Definition on_OE (e : event) : bool :=
  match e with
  | EvDigital OE _ | EvAnalog OE _ => true
  | _ => false
  end.

(** What was last written to the output-enable pin, if anything. *)
Definition OE_signal (st : machine) : option event :=
  last (List.filter on_OE (out st)).

(** Stray accesses that concern a segment table or store into the frame. *)
Definition table_or_store (x : access) : bool :=
  match x with
  | (SegData, _, _) | (Segments, _, _) | (_, _, Wr) => true
  | _ => false
  end.

(** Between [st] and [st'] no table read and no store left its array. *)
Definition tables_respected (st st' : machine) : Prop :=
  List.filter table_or_store (stray st') = List.filter table_or_store (stray st).

(** The pattern [alpha] returns for [c]. *)
Definition glyph (c : ascii) : byte := seg (alpha_index c).

(** The first six characters of a C string. *)
Definition six_chars (s : string) : list ascii := map (char_at s) [0; 1; 2; 3; 4; 5].

(** Two decimal digits as text. *)
Definition two_digits (x : Z) : string :=
  String (digit_char (x ÷ 10)) (String (digit_char (Z.rem x 10)) EmptyString).

(** The hour of a twelve-hour dial. *)
Definition hour12 (h : Z) : Z :=
  if h =? 0 then 12 else if 12 <? h then h - 12 else h.

(** What a clock reads, as six characters: [zero] is HOUR_LEADING_ZERO,
    [twelve] the twelve-hour mode. *)
Definition clock_text (zero twelve : bool) (h m s : Z) : string :=
  let dh := if twelve then hour12 h else h in
  String (if (dh <? 10) && negb zero && twelve then " "%char else digit_char (dh ÷ 10))
    (String (digit_char (Z.rem dh 10)) (two_digits m ++ two_digits s)).

Definition date_text (mo d yr : Z) : string :=
  (two_digits mo ++ two_digits d ++ two_digits (yr - 2000))%string.

(** The machine after some more events went out. *)
Definition emits (evs : list event) (st : machine) : machine :=
  Machine (digit st) (useLocalTime st) (out st ++ evs) (outside st) (stray st).

(** What one [writeByte(b)] sends. *)
Definition shown (b : byte) : list event := EvTransfer b :: latch_pulse.

(** What one [writeDisplay()] sends from a six-cell buffer. *)
Definition frame_sent (a : array) (st : machine) : list event :=
  EvTransfer (outside st a 6) :: map EvTransfer (rev (digit st)) ++ latch_pulse.

(** What one [writeDisplay()] sends when the byte behind the buffer is [x]
    and the buffer holds [frame]. *)
Definition sent (x : byte) (frame : list byte) : list event :=
  EvTransfer x :: map EvTransfer (rev frame) ++ latch_pulse.

(** The patterns of a six-character message. *)
Definition message (s : string) : list byte := map glyph (six_chars s).

(** Everything [startupScreen] sends when it is not bypassed: the counts
    0 to 8 on all six positions, four times off and on, then the two name
    frames; [x] is the byte behind the buffer. *)
Definition startup_show (x : byte) : list event :=
  concat (map (fun i => sent x (repeat (seg i) 6)) [0; 1; 2; 3; 4; 5; 6; 7; 8])
  ++ concat (repeat [EvDigital OE 1; EvDigital OE 0] 4)
  ++ sent x (message "brucE ") ++ sent x (message "  HALL").

Fixpoint up_from (n : nat) (i : Z) : list Z :=
  match n with
  | O => []
  | S n' => i :: up_from n' (i + 1)
  end.

Fixpoint down_from (n : nat) (i : Z) : list Z :=
  match n with
  | O => []
  | S n' => i :: down_from n' (i - 1)
  end.

(** Neighbours in the list differ by exactly one. *)
Fixpoint smooth (l : list Z) : bool :=
  match l with
  | a :: t => match t with
              | b :: _ => (Z.abs (a - b) =? 1) && smooth t
              | [] => true
              end
  | [] => true
  end.

(** ** Basic facts about the monad and the array accesses *)

Lemma run_bind {A B} (m : M A) (f : A -> M B) st :
  (m ≫= f) st = f (fst (m st)) (snd (m st)).
Proof. unfold mbind, M_bind. destruct (m st); reflexivity. Qed.

Lemma load_in a tbl i st :
  in_bounds tbl i = true -> load a tbl i st = (nth (Z.to_nat i) tbl 0, st).
Proof. intros H. unfold load. rewrite H. reflexivity. Qed.

Lemma store_digit_in a i v st :
  in_bounds (digit st) i = true ->
  store_digit a i v st = (tt, set_digit (<[Z.to_nat i := v]> (digit st)) st).
Proof. intros H. unfold store_digit. rewrite H. reflexivity. Qed.

Lemma in_bounds_spec {A} (l : list A) i :
  in_bounds l i = true <-> 0 <= i < Z.of_nat (length l).
Proof. unfold in_bounds. rewrite andb_true_iff, Z.leb_le, Z.ltb_lt. tauto. Qed.

Lemma segData_length : length Clock.segData = 49%nat.
Proof. reflexivity. Qed.

Lemma knownChars_strlen : strlen Clock.knownChars = 48.
Proof. reflexivity. Qed.

(** Two-digit splitting stays inside [segData] for values up to 489. *)
Lemma split_in_segData x :
  0 <= x <= 489 ->
  in_bounds Clock.segData (x ÷ 10) = true /\ in_bounds Clock.segData (Z.rem x 10) = true.
Proof.
  intros Hx. rewrite !in_bounds_spec, segData_length.
  rewrite Z.quot_div_nonneg, Z.rem_mod_nonneg by lia.
  pose proof (Z.mod_pos_bound x 10 ltac:(lia)).
  pose proof (Z.div_pos x 10 ltac:(lia) ltac:(lia)).
  pose proof (Z.div_lt_upper_bound x 10 49 ltac:(lia) ltac:(lia)).
  lia.
Qed.

Lemma six_cells (l : list byte) :
  length l = 6%nat -> exists d0 d1 d2 d3 d4 d5, l = [d0; d1; d2; d3; d4; d5].
Proof.
  intros H. do 6 (destruct l as [|? l]; [discriminate H|]).
  destruct l; [|discriminate H]. eauto 7.
Qed.

(** One monadic step of a frame encoder: a table read inside its table,
    or a store inside the frame. *)
Ltac step :=
  rewrite run_bind;
  first [ rewrite load_in by assumption
        | rewrite store_digit_in by reflexivity ];
  cbn [fst snd].

(** ** The transport: what [writeDisplay] puts on the wire *)

(** The transfer loop and the latch pulse on a six-cell buffer, spelled
    out: seven transfers, the first one fetched from behind the buffer. *)
Lemma transfer_loop_run a d0 d1 d2 d3 d4 d5 u o oz sy :
  (for_downto 6 0 (fun i => b ← load_digit a i; SPI_transfer b);;
   digitalWrite LATCH HIGH;; digitalWrite LATCH LOW)
    (Machine [d0; d1; d2; d3; d4; d5] u o oz sy)
  = (tt, Machine [d0; d1; d2; d3; d4; d5] u
           (o ++ EvTransfer (oz a 6)
              :: map EvTransfer [d5; d4; d3; d2; d1; d0] ++ latch_pulse)
           oz (sy ++ [(a, 6, Rd)])).
Proof.
  cbv -[app]. rewrite <- !app_assoc. reflexivity.
Qed.

(** ** The frame encoders, spelled out on a six-cell buffer *)

Lemma showTime_run cfg h m s d0 d1 d2 d3 d4 d5 u o oz sy :
  let twelve := (u && Clock.LOCAL_FORMAT_12HR cfg)
                || (negb u && Clock.UTC_FORMAT_12HR cfg) in
  let dh := if twelve
            then (let h := if h =? 0 then 12 else h in
                  if 12 <? h then h - 12 else h)
            else h in
  let lead := if (dh <? 10) && negb (Clock.HOUR_LEADING_ZERO cfg) && twelve
              then 0 else seg (dh ÷ 10) in
  0 <= dh <= 489 -> 0 <= m <= 489 -> 0 <= s <= 489 ->
  Clock.showTime cfg h m s (Machine [d0; d1; d2; d3; d4; d5] u o oz sy)
  = (tt, Machine [lead; seg (Z.rem dh 10); seg (m ÷ 10); seg (Z.rem m 10);
                  seg (s ÷ 10); seg (Z.rem s 10)] u
           (o ++ EvTransfer (oz Digit 6)
              :: map EvTransfer [seg (Z.rem s 10); seg (s ÷ 10); seg (Z.rem m 10);
                                 seg (m ÷ 10); seg (Z.rem dh 10); lead]
              ++ latch_pulse)
           oz (sy ++ [(Digit, 6, Rd)])).
Proof.
  intros twelve dh lead Hh Hm Hs.
  destruct (split_in_segData _ Hh) as [Hh1 Hh2].
  destruct (split_in_segData _ Hm) as [Hm1 Hm2].
  destruct (split_in_segData _ Hs) as [Hs1 Hs2].
  unfold Clock.showTime.
  rewrite run_bind. cbn [Clock.mode12h fst snd useLocalTime].
  fold twelve. cbv zeta. fold dh.
  rewrite run_bind.
  set (st := Machine [d0; d1; d2; d3; d4; d5] u o oz sy).
  assert (Hb : (if (dh <? 10) && negb (Clock.HOUR_LEADING_ZERO cfg)
                then Clock.mode12h cfg else mret false) st
               = ((dh <? 10) && negb (Clock.HOUR_LEADING_ZERO cfg) && twelve, st)).
  { destruct ((dh <? 10) && negb (Clock.HOUR_LEADING_ZERO cfg)); reflexivity. }
  rewrite Hb. cbn [fst snd].
  rewrite run_bind.
  assert (H0 : (if (dh <? 10) && negb (Clock.HOUR_LEADING_ZERO cfg) && twelve
                then store_digit Digit 0 0
                else load SegData Clock.segData (dh ÷ 10) ≫= λ v, store_digit Digit 0 v) st
               = (tt, Machine [lead; d1; d2; d3; d4; d5] u o oz sy)).
  { subst lead.
    destruct ((dh <? 10) && negb (Clock.HOUR_LEADING_ZERO cfg) && twelve);
      [reflexivity|].
    step. reflexivity. }
  rewrite H0. cbn [fst snd].
  do 10 step.
  apply transfer_loop_run.
Qed.

Lemma showDate_run mo d yr d0 d1 d2 d3 d4 d5 u o oz sy :
  let y := yr - 2000 in
  0 <= mo <= 489 -> 0 <= d <= 489 -> 0 <= y <= 489 ->
  Clock.showDate mo d yr (Machine [d0; d1; d2; d3; d4; d5] u o oz sy)
  = (tt, Machine [seg (mo ÷ 10); seg (Z.rem mo 10); seg (d ÷ 10); seg (Z.rem d 10);
                  seg (y ÷ 10); seg (Z.rem y 10)] u
           (o ++ EvTransfer (oz Digit 6)
              :: map EvTransfer [seg (Z.rem y 10); seg (y ÷ 10); seg (Z.rem d 10);
                                 seg (d ÷ 10); seg (Z.rem mo 10); seg (mo ÷ 10)]
              ++ latch_pulse)
           oz (sy ++ [(Digit, 6, Rd)])).
Proof.
  intros y Hm Hd Hy.
  destruct (split_in_segData _ Hm) as [Hm1 Hm2].
  destruct (split_in_segData _ Hd) as [Hd1 Hd2].
  destruct (split_in_segData _ Hy) as [Hy1 Hy2].
  unfold Clock.showDate. cbv zeta. fold y.
  do 12 step.
  apply transfer_loop_run.
Qed.

(** ** The glyph lookup *)

(** The scan leaves its loop through the loop condition, not because the
    step bound ran out: it stops inside the string exactly at a match,
    after having passed only characters different from [c]. *)
Lemma alpha_search_stop n c i :
  0 <= i <= 48 -> 48 <= i + Z.of_nat n ->
  let r := Clock.alpha_search n c i in
  i <= r <= 48
  /\ (r < 48 -> c = char_at Clock.knownChars r)
  /\ (forall j, i <= j < r -> c <> char_at Clock.knownChars j).
Proof.
  revert i. induction n as [|n IH]; intros i Hi Hn; cbn [Clock.alpha_search].
  - cbv zeta. repeat split; intros; lia.
  - rewrite knownChars_strlen.
    destruct (i <? 48) eqn:Hlt; cbn [andb].
    + apply Z.ltb_lt in Hlt.
      destruct (Ascii.eqb c (char_at Clock.knownChars i)) eqn:Heq; cbn [negb].
      * apply Ascii.eqb_eq in Heq. cbv zeta. repeat split; intros; try lia. exact Heq.
      * apply Ascii.eqb_neq in Heq.
        destruct (IH (i + 1)) as (Hr & Hm & Hp); [lia | lia |].
        cbv zeta. repeat split; try lia; [exact Hm|].
        intros j Hj. destruct (Z.eq_dec j i) as [->|Hne]; [exact Heq|].
        apply Hp. lia.
    + apply Z.ltb_ge in Hlt. cbv zeta. repeat split; intros; lia.
Qed.

Lemma alpha_index_stop c :
  0 <= alpha_index c <= 48
  /\ (alpha_index c < 48 -> c = char_at Clock.knownChars (alpha_index c))
  /\ (forall j, 0 <= j < alpha_index c -> c <> char_at Clock.knownChars j).
Proof.
  apply (alpha_search_stop (strlen_nat Clock.knownChars) c 0); [lia|].
  change (Z.of_nat (strlen_nat Clock.knownChars)) with 48. lia.
Qed.

(** [alpha] reads [segData] inside its bounds and changes nothing. *)
Lemma alpha_run c st : Clock.alpha c st = (seg (alpha_index c), st).
Proof.
  unfold Clock.alpha. fold (alpha_index c).
  apply load_in. apply in_bounds_spec. rewrite segData_length.
  pose proof (alpha_index_stop c) as [H _]. lia.
Qed.

Lemma below_48 (P : nat -> bool) :
  forallb P (seq 0 48) = true -> forall i, 0 <= i < 48 -> P (Z.to_nat i) = true.
Proof.
  intros H i Hi. rewrite forallb_forall in H. apply H. apply in_seq. lia.
Qed.

Lemma char_at_known j : 0 <= j < 48 -> known (char_at Clock.knownChars j) = true.
Proof.
  intros Hj.
  pose proof (below_48 (fun n => known (char_at Clock.knownChars (Z.of_nat n)))
                eq_refl j Hj) as H.
  cbv beta in H. rewrite Z2Nat.id in H by lia. exact H.
Qed.

Lemma alpha_index_of_known j :
  0 <= j < 48 -> alpha_index (char_at Clock.knownChars j) = j.
Proof.
  intros Hj.
  pose proof (below_48
    (fun n => alpha_index (char_at Clock.knownChars (Z.of_nat n)) =? Z.of_nat n)
    eq_refl j Hj) as H.
  cbv beta in H. rewrite Z2Nat.id in H by lia. apply Z.eqb_eq. exact H.
Qed.

(** ** The loop of [showString] *)

Lemma set_digit_same st : set_digit (digit st) st = st.
Proof. destruct st; reflexivity. Qed.

Lemma showString_loop str n :
  forall i st,
    0 <= i -> i + Z.of_nat n <= Z.of_nat (length (digit st)) ->
    exists l,
      for_up_from n i
        (fun i => v ← Clock.alpha (char_at str i); store_digit Digit i v) st
      = (tt, set_digit l st)
      /\ length l = length (digit st)
      /\ forall k : nat,
          l !! k = if (i <=? Z.of_nat k) && (Z.of_nat k <? i + Z.of_nat n)
                   then Some (seg (alpha_index (char_at str (Z.of_nat k))))
                   else digit st !! k.
Proof.
  induction n as [|n IH]; intros i st Hi Hn.
  - exists (digit st). cbn [for_up_from]. split; [|split].
    + unfold mret, M_ret. rewrite set_digit_same. reflexivity.
    + reflexivity.
    + intros k. destruct (i <=? Z.of_nat k) eqn:E; cbn [andb]; [|reflexivity].
      apply Z.leb_le in E. destruct (Z.of_nat k <? i + Z.of_nat 0) eqn:F; [|reflexivity].
      apply Z.ltb_lt in F. lia.
  - cbn [for_up_from].
    rewrite run_bind, run_bind, alpha_run. cbn [fst snd].
    rewrite store_digit_in by (apply in_bounds_spec; lia). cbn [fst snd].
    set (p := seg (alpha_index (char_at str i))).
    set (st1 := set_digit (<[Z.to_nat i := p]> (digit st)) st).
    destruct (IH (i + 1) st1) as (l & Hrun & Hlen & Hl).
    { lia. }
    { subst st1. cbn [set_digit digit]. rewrite length_insert. lia. }
    exists l. split; [|split].
    + rewrite Hrun. reflexivity.
    + rewrite Hlen. subst st1. cbn [set_digit digit]. apply length_insert.
    + intros k. rewrite Hl. subst st1. cbn [set_digit digit].
      destruct (Z.eq_dec (Z.of_nat k) i) as [E|E].
      * assert (k = Z.to_nat i) as -> by lia.
        rewrite list_lookup_insert_eq by lia.
        replace (i + 1 <=? Z.of_nat (Z.to_nat i)) with false by (symmetry; apply Z.leb_gt; lia).
        replace (i <=? Z.of_nat (Z.to_nat i)) with true by (symmetry; apply Z.leb_le; lia).
        replace (Z.of_nat (Z.to_nat i) <? i + Z.of_nat (S n)) with true
          by (symmetry; apply Z.ltb_lt; lia).
        cbn [andb]. subst p. rewrite Z2Nat.id by lia. reflexivity.
      * rewrite list_lookup_insert_ne by lia.
        replace (Z.of_nat k <? i + 1 + Z.of_nat n) with (Z.of_nat k <? i + Z.of_nat (S n))
          by (f_equal; lia).
        destruct (Z.of_nat k <? i + Z.of_nat (S n)); [|rewrite !andb_false_r; reflexivity].
        rewrite !andb_true_r.
        destruct (i <=? Z.of_nat k) eqn:F.
        -- apply Z.leb_le in F.
           replace (i + 1 <=? Z.of_nat k) with true by (symmetry; apply Z.leb_le; lia).
           reflexivity.
        -- apply Z.leb_gt in F.
           replace (i + 1 <=? Z.of_nat k) with false by (symmetry; apply Z.leb_gt; lia).
           reflexivity.
Qed.

Lemma writeDisplay_run st :
  length (digit st) = 6%nat ->
  Clock.writeDisplay st
  = (tt, Machine (digit st) (useLocalTime st)
           (out st ++ EvTransfer (outside st Digit 6)
              :: map EvTransfer (rev (digit st)) ++ latch_pulse)
           (outside st) (stray st ++ [(Digit, 6, Rd)])).
Proof.
  intros H. destruct st as [dg u o oz sy]. cbn [digit] in H.
  destruct (six_cells dg H) as (d0 & d1 & d2 & d3 & d4 & d5 & ->).
  apply transfer_loop_run.
Qed.

Lemma Step5_writeDisplay_run st :
  length (Step5.tube st) = 6%nat ->
  Step5.writeDisplay st
  = (tt, Machine (Step5.tube st) (useLocalTime st)
           (out st ++ EvTransfer (outside st Tube 6)
              :: map EvTransfer (rev (Step5.tube st)) ++ latch_pulse)
           (outside st) (stray st ++ [(Tube, 6, Rd)])).
Proof.
  unfold Step5.tube. intros H. destruct st as [dg u o oz sy]. cbn [digit] in H.
  destruct (six_cells dg H) as (d0 & d1 & d2 & d3 & d4 & d5 & ->).
  apply transfer_loop_run.
Qed.

(** * The properties *)

(** ** Display transport *)

(** C1, as the code behaves.  On a six-position frame [writeDisplay] (in the
    six-digit clock and in Step5 alike) runs its loop for i = 6, 5, ..., 0:
    it makes seven transfers, not six.  The first byte is read at index 6,
    behind the end of the buffer, and that read is a stray access; the six
    bytes that follow are the frame in reverse order (position 5 first,
    position 0 last); the latch is then raised and lowered once. *)
Theorem writeDisplay_sends_seven_bytes st :
  length (digit st) = 6%nat ->
  out (exec Clock.writeDisplay st)
  = out st ++ EvTransfer (outside st Digit 6)
        :: map EvTransfer (rev (digit st)) ++ latch_pulse
  /\ stray (exec Clock.writeDisplay st) = stray st ++ [(Digit, 6, Rd)]
  /\ out (exec Step5.writeDisplay st)
     = out st ++ EvTransfer (outside st Tube 6)
         :: map EvTransfer (rev (Step5.tube st)) ++ latch_pulse
  /\ stray (exec Step5.writeDisplay st) = stray st ++ [(Tube, 6, Rd)].
Proof.
  intros H. unfold exec.
  rewrite (writeDisplay_run st H), (Step5_writeDisplay_run st H).
  repeat split.
Qed.

(** The frame 1,2,3,4,5,6 sent from a fresh machine: seven bytes leave,
    led by the byte found behind the buffer. *)
Lemma writeDisplay_sends_seven_bytes_witness :
  out (exec Clock.writeDisplay (set_digit [1; 2; 3; 4; 5; 6] boot))
  = [EvTransfer 0; EvTransfer 6; EvTransfer 5; EvTransfer 4; EvTransfer 3;
     EvTransfer 2; EvTransfer 1; EvDigital LATCH HIGH; EvDigital LATCH LOW].
Proof.
  exact (proj1 (writeDisplay_sends_seven_bytes
                  (set_digit [1; 2; 3; 4; 5; 6] boot) eq_refl)).
Defined.

(** ** The clock encoder *)

(** C2, as stated, fails: at midnight, in twelve-hour mode with the leading
    zero suppressed, the frame does not start with a blank position. *)
Lemma showTime_midnight_blank_refuted :
  eval (Clock.mode12h Clock.sketch) boot = true
  /\ Clock.HOUR_LEADING_ZERO Clock.sketch = false
  /\ digit (exec (Clock.showTime Clock.sketch 0 0 0) boot)
     <> [0; bin "10110011"; bin "11100111"; bin "11100111";
         bin "11100111"; bin "11100111"].
Proof.
  split; [reflexivity|]. split; [reflexivity|].
  vm_compute. discriminate.
Qed.

(** C2, amended.  [showTime] at hour 0, minute 0, second 0 in twelve-hour
    mode produces the frame of the digits 1,2,0,0,0,0: hour 0 is shown as
    12, and since 12 has two digits nothing is blanked, whatever the
    leading-zero option. *)
Theorem showTime_midnight cfg st :
  length (digit st) = 6%nat ->
  eval (Clock.mode12h cfg) st = true ->
  digit (exec (Clock.showTime cfg 0 0 0) st)
  = [bin "01000001"; bin "10110011"; bin "11100111"; bin "11100111";
     bin "11100111"; bin "11100111"].
Proof.
  intros H H12. destruct st as [dg u o oz sy]. cbn [digit] in H.
  destruct (six_cells dg H) as (d0 & d1 & d2 & d3 & d4 & d5 & ->).
  unfold eval in H12. cbn [Clock.mode12h fst useLocalTime] in H12.
  unfold exec. rewrite showTime_run; cbv zeta; rewrite ?H12; cbn; try lia.
  reflexivity.
Qed.

Lemma showTime_midnight_witness :
  digit (exec (Clock.showTime Clock.sketch 0 0 0) boot)
  = [bin "01000001"; bin "10110011"; bin "11100111"; bin "11100111";
     bin "11100111"; bin "11100111"].
Proof.
  exact (showTime_midnight Clock.sketch boot eq_refl eq_refl).
Defined.

Lemma twelve_hour_cases h :
  (let h' := if h =? 0 then 12 else h in if 12 <? h' then h' - 12 else h')
  = if h =? 0 then 12 else if 12 <? h then h - 12 else h.
Proof. cbv zeta. destruct (h =? 0); reflexivity. Qed.

Lemma displayed_hour_range (twelve : bool) h :
  0 <= h <= 489 ->
  0 <= (if twelve
        then (let h' := if h =? 0 then 12 else h in if 12 <? h' then h' - 12 else h')
        else h) <= 489.
Proof.
  intros Hh. destruct twelve; [|exact Hh].
  rewrite twelve_hour_cases.
  destruct (h =? 0); [lia|].
  destruct (12 <? h) eqn:E; [|exact Hh].
  apply Z.ltb_lt in E. lia.
Qed.

(** C8.  For an hour between 0 and 23 (minute and second between 0 and 59)
    [showTime] fills the frame with the digits of the displayed hour, the
    minute and the second; in twelve-hour mode the displayed hour is 12 for
    hour 0, hour - 12 for an hour above 12, and the hour itself otherwise
    (in twenty-four-hour mode it is the hour).  The leading hour position
    is blank exactly when the displayed hour is below 10, the option
    HOUR_LEADING_ZERO is off and the mode is twelve-hour.  Instances:
    13:05:09 in twelve-hour mode with the leading zero shown gives the
    digits 0,1,0,5,0,9 (in the six-digit clock and in Step5), and 23:59:00
    in twenty-four-hour mode gives 2,3,5,9,0,0. *)
Theorem showTime_displayed_hour cfg h m s st :
  length (digit st) = 6%nat ->
  0 <= h <= 23 -> 0 <= m <= 59 -> 0 <= s <= 59 ->
  let twelve := eval (Clock.mode12h cfg) st in
  let dh := if twelve
            then (if h =? 0 then 12 else if 12 <? h then h - 12 else h)
            else h in
  digit (exec (Clock.showTime cfg h m s) st)
  = [ (if (dh <? 10) && negb (Clock.HOUR_LEADING_ZERO cfg) && twelve
       then 0 else seg (dh ÷ 10));
      seg (Z.rem dh 10); seg (m ÷ 10); seg (Z.rem m 10);
      seg (s ÷ 10); seg (Z.rem s 10) ]
  /\ (forall utc d0 d1 d2 d3 d4 d5 o oz sy,
        digit (exec (Clock.showTime (Clock.Config true utc true) 13 5 9)
                 (Machine [d0; d1; d2; d3; d4; d5] true o oz sy))
        = [bin "11100111"; bin "01000001"; bin "11100111"; bin "11110100";
           bin "11100111"; bin "11110101"])
  /\ (forall loc zero d0 d1 d2 d3 d4 d5 o oz sy,
        digit (exec (Clock.showTime (Clock.Config loc false zero) 23 59 0)
                 (Machine [d0; d1; d2; d3; d4; d5] false o oz sy))
        = [bin "10110011"; bin "11110001"; bin "11110100"; bin "11110101";
           bin "11100111"; bin "11100111"])
  /\ (forall d0 d1 d2 d3 d4 d5 u o oz sy,
        Step5.tube (exec (Step5.showTime 13 5 9)
                      (Machine [d0; d1; d2; d3; d4; d5] u o oz sy))
        = [bin "11100111"; bin "01000001"; bin "11100111"; bin "11110100";
           bin "11100111"; bin "11110101"]).
Proof.
  intros H Hh Hm Hs twelve dh. split; [|split; [|split]].
  - destruct st as [dg u o oz sy]. cbn [digit] in H.
    destruct (six_cells dg H) as (d0 & d1 & d2 & d3 & d4 & d5 & ->).
    subst dh twelve. unfold eval, exec. cbn [Clock.mode12h fst useLocalTime].
    rewrite showTime_run; try lia.
    + cbv zeta. rewrite twelve_hour_cases. reflexivity.
    + apply displayed_hour_range. lia.
  - intros. unfold exec.
    rewrite showTime_run; [reflexivity | apply displayed_hour_range; lia | lia | lia].
  - intros. unfold exec.
    rewrite showTime_run; [|apply displayed_hour_range; lia | lia | lia].
    cbn [negb andb orb]. rewrite andb_false_r. reflexivity.
  - intros. reflexivity.
Qed.

Lemma showTime_displayed_hour_witness :
  digit (exec (Clock.showTime Clock.sketch 13 5 9) boot)
  = [0; bin "01000001"; bin "11100111"; bin "11110100";
     bin "11100111"; bin "11110101"].
Proof.
  exact (proj1 (showTime_displayed_hour Clock.sketch 13 5 9 boot eq_refl
                  ltac:(lia) ltac:(lia) ltac:(lia))).
Defined.

(** ** Brightness *)

Lemma OE_signal_emit e st : on_OE e = true -> OE_signal (emit e st) = Some e.
Proof.
  intros H. unfold OE_signal. cbn [emit out].
  rewrite List.filter_app. cbn [List.filter]. rewrite H. apply last_snoc.
Qed.

Lemma setBrightness_run level st :
  0 <= level <= 10 ->
  Clock.setBrightness level st = (tt, emit (EvAnalog OE (duty level)) st).
Proof.
  intros H. unfold Clock.setBrightness.
  replace ((0 <=? level) && (level <=? 10)) with true
    by (symmetry; apply andb_true_iff; split; apply Z.leb_le; lia).
  rewrite run_bind, load_in by (apply in_bounds_spec; cbn; lia).
  reflexivity.
Qed.

Lemma level_cases l :
  0 <= l <= 10 ->
  l = 0 \/ l = 1 \/ l = 2 \/ l = 3 \/ l = 4 \/ l = 5 \/ l = 6 \/ l = 7 \/ l = 8
  \/ l = 9 \/ l = 10.
Proof. lia. Qed.

Lemma duty_step l : 0 <= l < 10 -> duty (l + 1) < duty l.
Proof.
  intros H. destruct (level_cases l ltac:(lia)) as [E|E];
    repeat (destruct E as [E|E]); subst l; try reflexivity. lia.
Qed.

Lemma duty_decreasing l1 l2 : 0 <= l1 -> l1 < l2 -> l2 <= 10 -> duty l2 < duty l1.
Proof.
  intros H0 H1 H2.
  assert (forall n : nat, 0 <= l1 -> l1 + 1 + Z.of_nat n <= 10 ->
                          duty (l1 + 1 + Z.of_nat n) < duty l1) as Hn.
  { induction n as [|n IH]; intros Ha Hb.
    - rewrite Z.add_0_r. apply duty_step. lia.
    - replace (l1 + 1 + Z.of_nat (S n)) with (l1 + 1 + Z.of_nat n + 1) by lia.
      pose proof (duty_step (l1 + 1 + Z.of_nat n) ltac:(lia)).
      pose proof (IH Ha ltac:(lia)). lia. }
  replace l2 with (l1 + 1 + Z.of_nat (Z.to_nat (l2 - l1 - 1))) by lia.
  apply Hn; lia.
Qed.

(** C3, as stated, fails: the duty values written for the levels 0, 5 and
    10 are not increasing. *)
Lemma setBrightness_duty_increasing_refuted :
  ~ (exists a b c,
        OE_signal (exec (Clock.setBrightness 0) boot) = Some (EvAnalog OE a)
        /\ OE_signal (exec (Clock.setBrightness 5) boot) = Some (EvAnalog OE b)
        /\ OE_signal (exec (Clock.setBrightness 10) boot) = Some (EvAnalog OE c)
        /\ a < b /\ b < c).
Proof.
  intros (a & b & c & Ha & Hb & Hc & Hab & Hbc).
  vm_compute in Ha, Hb, Hc. injection Ha as <-. injection Hb as <-. lia.
Qed.

(** C3, amended.  For a level between 0 and 10 [setBrightness] writes to
    the output-enable pin the duty value found at that level in a fixed
    table of eleven entries, and the table is strictly decreasing in the
    level (the pin is active low): a higher level gets a smaller duty
    value.  Level 0 gets 255, level 5 gets 100 and level 10 gets 0, three
    distinct values. *)
Theorem setBrightness_duty_decreasing l1 l2 st :
  0 <= l1 -> l1 < l2 -> l2 <= 10 ->
  OE_signal (exec (Clock.setBrightness l1) st) = Some (EvAnalog OE (duty l1))
  /\ OE_signal (exec (Clock.setBrightness l2) st) = Some (EvAnalog OE (duty l2))
  /\ duty l2 < duty l1
  /\ length Clock.data = 11%nat
  /\ duty 0 = 255 /\ duty 5 = 100 /\ duty 10 = 0.
Proof.
  intros H0 H1 H2. unfold exec.
  rewrite !setBrightness_run by lia. cbn [snd].
  rewrite !OE_signal_emit by reflexivity.
  repeat split. apply duty_decreasing; lia.
Qed.

Lemma setBrightness_duty_decreasing_witness :
  OE_signal (exec (Clock.setBrightness 0) boot) = Some (EvAnalog OE 255)
  /\ OE_signal (exec (Clock.setBrightness 10) boot) = Some (EvAnalog OE 0)
  /\ duty 10 < duty 0.
Proof.
  pose proof (setBrightness_duty_decreasing 0 10 boot
                ltac:(lia) ltac:(lia) ltac:(lia)) as (H1 & H2 & H3 & _).
  exact (conj H1 (conj H2 H3)).
Defined.

(** C7.  A level below 0 or above 10 makes [setBrightness] do nothing at
    all: the machine is returned as it was, so what was last applied to the
    output-enable pin stays, nothing is sent and no access is made. *)
Theorem setBrightness_out_of_range level st :
  level < 0 \/ 10 < level ->
  Clock.setBrightness level st = (tt, st)
  /\ OE_signal (exec (Clock.setBrightness level) st) = OE_signal st.
Proof.
  intros H.
  assert (Clock.setBrightness level st = (tt, st)) as E.
  { unfold Clock.setBrightness.
    replace ((0 <=? level) && (level <=? 10)) with false; [reflexivity|].
    symmetry. apply andb_false_iff.
    destruct H; [left; apply Z.leb_gt | right; apply Z.leb_gt]; lia. }
  split; [exact E|]. unfold exec. rewrite E. reflexivity.
Qed.

Lemma setBrightness_out_of_range_witness :
  Clock.setBrightness 11 (exec (Clock.setBrightness 5) boot)
  = (tt, exec (Clock.setBrightness 5) boot)
  /\ Clock.setBrightness (-1) (exec (Clock.setBrightness 5) boot)
     = (tt, exec (Clock.setBrightness 5) boot).
Proof.
  split.
  - refine (proj1 (setBrightness_out_of_range 11 _ _)). right. reflexivity.
  - refine (proj1 (setBrightness_out_of_range (-1) _ _)). left. reflexivity.
Defined.

(** ** Glyph table *)

Lemma char_at_nth s : forall n, char_at s (Z.of_nat n) = nth n (list_ascii_of_string s) NUL.
Proof.
  unfold char_at. intros n. rewrite Nat2Z.id. revert n.
  induction s as [|c s IH]; intros [|n]; cbn; try reflexivity. apply IH.
Qed.

Lemma known_has_index c :
  known c = true -> exists i, 0 <= i < 48 /\ char_at Clock.knownChars i = c.
Proof.
  unfold known. intros H. apply existsb_exists in H as (x & Hin & Hx).
  apply Ascii.eqb_eq in Hx. subst x.
  apply (In_nth _ _ NUL) in Hin as (n & Hn & Hc).
  exists (Z.of_nat n). split.
  - change (length (list_ascii_of_string Clock.knownChars)) with 48%nat in Hn. lia.
  - rewrite char_at_nth. exact Hc.
Qed.

(** C5.  A character that is not in [knownChars] makes the scan of [alpha]
    run to the end of the string, index 48 = strlen(knownChars); [segData]
    has one entry more than [knownChars] has characters, that last entry is
    0b00000000, and it is what [alpha] returns (leaving the machine as it
    was). *)
Theorem alpha_unknown c st :
  known c = false ->
  alpha_index c = strlen Clock.knownChars
  /\ Z.of_nat (length Clock.segData) = strlen Clock.knownChars + 1
  /\ seg (strlen Clock.knownChars) = bin "00000000"
  /\ Clock.alpha c st = (bin "00000000", st).
Proof.
  intros H.
  assert (alpha_index c = 48) as E.
  { destruct (alpha_index_stop c) as (Hr & Hm & _).
    destruct (Z.eq_dec (alpha_index c) 48) as [E|E]; [exact E|].
    assert (alpha_index c < 48) as Hlt by lia.
    pose proof (char_at_known (alpha_index c) ltac:(lia)) as Hk.
    rewrite <- (Hm Hlt) in Hk. congruence. }
  rewrite knownChars_strlen. repeat split; try assumption.
  rewrite alpha_run, E. reflexivity.
Qed.

Lemma alpha_unknown_witness :
  known "z" = false /\ Clock.alpha "z" boot = (0, boot).
Proof.
  split; [reflexivity|].
  exact (proj2 (proj2 (proj2 (alpha_unknown "z" boot eq_refl)))).
Defined.

(** C6.  A character of [knownChars] stands at some index of the string,
    and for whichever index [i] it stands at, [alpha] returns entry [i] of
    [segData] (and leaves the machine as it was).  In particular
    alpha('0') = 0b11100111, alpha('A') = 0b01110111 and
    alpha(' ') = 0b00000000. *)
Theorem alpha_known c st :
  known c = true ->
  (exists i, 0 <= i < strlen Clock.knownChars /\ char_at Clock.knownChars i = c)
  /\ (forall i, 0 <= i < strlen Clock.knownChars ->
                char_at Clock.knownChars i = c ->
                Clock.alpha c st = (seg i, st))
  /\ Clock.alpha "0" st = (bin "11100111", st)
  /\ Clock.alpha "A" st = (bin "01110111", st)
  /\ Clock.alpha " " st = (bin "00000000", st).
Proof.
  intros H. rewrite knownChars_strlen. split; [|split].
  - apply known_has_index. exact H.
  - intros i Hi <-. rewrite alpha_run, alpha_index_of_known by exact Hi. reflexivity.
  - rewrite !alpha_run. repeat split.
Qed.

Lemma alpha_known_witness :
  known "E" = true /\ Clock.alpha "E" boot = (bin "10110110", boot).
Proof.
  split; [reflexivity|].
  refine (proj1 (proj2 (alpha_known "E" boot eq_refl)) 15 _ eq_refl).
  split; reflexivity || discriminate.
Defined.

(** C9.  For a digit d between 0 and 9, entry d of the numeric table
    [segments] (Step5), entry d of [segData] and [alpha] applied to the
    character '0'+d all give the same pattern, every read staying inside
    its table. *)
Theorem digit_tables_agree d st :
  0 <= d <= 9 ->
  load Segments Step5.segments d st = Clock.alpha (digit_char d) st
  /\ load SegData Clock.segData d st = Clock.alpha (digit_char d) st
  /\ known (digit_char d) = true
  /\ stray (exec (Clock.alpha (digit_char d)) st) = stray st.
Proof.
  intros H. rewrite alpha_run.
  rewrite !load_in by (apply in_bounds_spec; cbn; lia).
  destruct (level_cases d ltac:(lia)) as [E|E];
    repeat (destruct E as [E|E]); subst d; try lia; repeat split.
Qed.

Lemma digit_tables_agree_witness :
  load Segments Step5.segments 7 boot = Clock.alpha "7" boot.
Proof.
  refine (proj1 (digit_tables_agree 7 boot _)). split; discriminate.
Defined.

(** ** The message encoder *)

Lemma showString_run str st :
  length (digit st) = 6%nat -> strlen str <= 6 ->
  exists l,
    length l = 6%nat
    /\ (forall k : nat,
          l !! k = if Z.of_nat k <? strlen str
                   then Some (seg (alpha_index (char_at str (Z.of_nat k))))
                   else digit st !! k)
    /\ Clock.showString str st
       = (tt, Machine l (useLocalTime st)
                (out st ++ EvTransfer (outside st Digit 6)
                   :: map EvTransfer (rev l) ++ latch_pulse)
                (outside st) (stray st ++ [(Digit, 6, Rd)])).
Proof.
  intros H Hn.
  destruct (showString_loop str (strlen_nat str) 0 st) as (l & Hrun & Hlen & Hl).
  { lia. }
  { rewrite H. unfold strlen in Hn. lia. }
  exists l. split; [congruence|]. split.
  - intros k. rewrite Hl. fold (strlen str).
    replace (0 <=? Z.of_nat k) with true by (symmetry; apply Z.leb_le; lia).
    reflexivity.
  - unfold Clock.showString, for_upto.
    replace (Z.to_nat (strlen str - 0)) with (strlen_nat str) by (unfold strlen; lia).
    rewrite run_bind, Hrun. cbn [fst snd].
    rewrite writeDisplay_run by (cbn [set_digit digit]; congruence).
    reflexivity.
Qed.

(** C10.  For a string of length n <= 6 (the frame having its six
    positions), [showString] leaves position k of the frame holding the
    pattern that [alpha] gives for character k of the string when k < n, and
    exactly what it held before the call when k >= n: the tail of the frame
    is neither padded nor blanked. *)
Theorem showString_keeps_tail str st (k : nat) :
  length (digit st) = 6%nat ->
  strlen str <= 6 ->
  digit (exec (Clock.showString str) st) !! k
  = if Z.of_nat k <? strlen str
    then Some (eval (Clock.alpha (char_at str (Z.of_nat k))) st)
    else digit st !! k.
Proof.
  intros H Hn.
  destruct (showString_run str st H Hn) as (l & _ & Hl & Hrun).
  unfold exec, eval. rewrite Hrun, alpha_run. cbn [fst snd digit]. apply Hl.
Qed.

(** "  dAtE" shown, then "no": position 3 still holds the 'A' of the
    first message. *)
Lemma showString_keeps_tail_witness :
  digit (exec (Clock.showString "no") (exec (Clock.showString "  dAtE") boot)) !! 3%nat
  = digit (exec (Clock.showString "  dAtE") boot) !! 3%nat.
Proof.
  refine (showString_keeps_tail "no" (exec (Clock.showString "  dAtE") boot) 3 _ _).
  - reflexivity.
  - discriminate.
Defined.

(** ** Totality of the encoders *)

Lemma tables_respected_slip st st' a :
  stray st' = stray st ++ [(a, 6, Rd)] ->
  a = Digit \/ a = Tube ->
  tables_respected st st'.
Proof.
  intros E Ha. unfold tables_respected. rewrite E, List.filter_app.
  destruct Ha as [-> | ->]; cbn; apply app_nil_r.
Qed.

(** C4, as stated, fails: a year before 2000 makes [showDate] read
    [segData] at a negative index, an hour value of 600 makes [showTime]
    read it behind its end, and a string of seven characters makes
    [showString] store behind the end of the frame. *)
Lemma encoders_total_refuted :
  stray (exec (Clock.showDate 1 1 1970) boot) = [(SegData, -3, Rd); (Digit, 6, Rd)]
  /\ ~ tables_respected boot (exec (Clock.showDate 1 1 1970) boot)
  /\ stray (exec (Clock.showTime Clock.sketch 600 0 0) boot)
     = [(SegData, 58, Rd); (Digit, 6, Rd)]
  /\ ~ tables_respected boot (exec (Clock.showTime Clock.sketch 600 0 0) boot)
  /\ stray (exec (Clock.showString "1234567") boot) = [(Digit, 6, Wr); (Digit, 6, Rd)]
  /\ ~ tables_respected boot (exec (Clock.showString "1234567") boot).
Proof.
  repeat split; try reflexivity; intros H; vm_compute in H; discriminate H.
Qed.

(** C4, amended.  With a six-position frame, [showTime], [showDate] and
    [showString] make no read of [segData] outside the table and no store
    outside the frame, provided the hour, minute, second, month and day
    values lie between 0 and 489, the year between 2000 and 2489, and the
    string has at most six characters (which may be any characters: [alpha]
    on any character reads inside [segData] and changes nothing).
    [showTime] and [showDate] then rewrite all six positions with the
    [segData] entries of the two-digit splittings (the leading hour
    position possibly blank); [showString] rewrites the first strlen(str)
    positions, each with the pattern [alpha] gives for the character at
    that position, and leaves every later position as it was.  The frame
    keeps its six positions. *)
Theorem encoders_in_bounds cfg h m s mo d yr str c st :
  length (digit st) = 6%nat ->
  0 <= h <= 489 -> 0 <= m <= 489 -> 0 <= s <= 489 ->
  0 <= mo <= 489 -> 0 <= d <= 489 -> 2000 <= yr <= 2489 ->
  strlen str <= 6 ->
  let twelve := eval (Clock.mode12h cfg) st in
  let dh := if twelve
            then (if h =? 0 then 12 else if 12 <? h then h - 12 else h)
            else h in
  (tables_respected st (exec (Clock.showTime cfg h m s) st)
   /\ digit (exec (Clock.showTime cfg h m s) st)
      = [ (if (dh <? 10) && negb (Clock.HOUR_LEADING_ZERO cfg) && twelve
           then 0 else seg (dh ÷ 10));
          seg (Z.rem dh 10); seg (m ÷ 10); seg (Z.rem m 10);
          seg (s ÷ 10); seg (Z.rem s 10) ])
  /\ (tables_respected st (exec (Clock.showDate mo d yr) st)
      /\ digit (exec (Clock.showDate mo d yr) st)
         = [seg (mo ÷ 10); seg (Z.rem mo 10); seg (d ÷ 10); seg (Z.rem d 10);
            seg ((yr - 2000) ÷ 10); seg (Z.rem (yr - 2000) 10)])
  /\ (tables_respected st (exec (Clock.showString str) st)
      /\ length (digit (exec (Clock.showString str) st)) = 6%nat
      /\ forall k : nat,
           digit (exec (Clock.showString str) st) !! k
           = if Z.of_nat k <? strlen str
             then Some (eval (Clock.alpha (char_at str (Z.of_nat k))) st)
             else digit st !! k)
  /\ Clock.alpha c st = (seg (alpha_index c), st)
  /\ 0 <= alpha_index c < Z.of_nat (length Clock.segData).
Proof.
  intros H Hh Hm Hs Hmo Hd Hy Hn twelve dh.
  split; [|split; [|split; [|split]]].
  - destruct st as [dg u o oz sy]. cbn [digit] in H.
    destruct (six_cells dg H) as (d0 & d1 & d2 & d3 & d4 & d5 & ->).
    subst dh twelve. unfold eval, exec. cbn [Clock.mode12h fst useLocalTime].
    rewrite showTime_run; [|apply displayed_hour_range; lia | lia | lia].
    cbv zeta. rewrite twelve_hour_cases. cbn [snd digit]. split; [|reflexivity].
    apply (tables_respected_slip _ _ Digit); [reflexivity | left; reflexivity].
  - destruct st as [dg u o oz sy]. cbn [digit] in H.
    destruct (six_cells dg H) as (d0 & d1 & d2 & d3 & d4 & d5 & ->).
    unfold exec. rewrite showDate_run by lia.
    cbn [snd digit]. split; [|reflexivity].
    apply (tables_respected_slip _ _ Digit); [reflexivity | left; reflexivity].
  - destruct (showString_run str st H Hn) as (l & Hlen & Hl & Hrun).
    unfold exec. rewrite Hrun. cbn [snd digit]. split; [|split; [exact Hlen|]].
    + apply (tables_respected_slip _ _ Digit); [reflexivity | left; reflexivity].
    + intros k. unfold eval. rewrite alpha_run. cbn [fst]. apply Hl.
  - apply alpha_run.
  - rewrite segData_length. pose proof (alpha_index_stop c) as [Hr _]. lia.
Qed.

Lemma encoders_in_bounds_witness :
  tables_respected boot (exec (Clock.showDate 6 22 2023) boot)
  /\ digit (exec (Clock.showDate 6 22 2023) boot)
     = [bin "11100111"; bin "11110110"; bin "10110011"; bin "10110011";
        bin "10110011"; bin "11110001"].
Proof.
  refine (proj1 (proj2 (encoders_in_bounds Clock.sketch 23 59 0 6 22 2023
                          "no nEt" "?" boot eq_refl _ _ _ _ _ _ _)));
    solve [split; discriminate | discriminate].
Defined.

(** * Further properties of the sketches *)

(** ** Transport *)

Lemma transfer_loop_keeps a n :
  forall i st,
    let st' := exec (for_down_from n i (fun i => b ← load_digit a i; SPI_transfer b)) st in
    digit st' = digit st
    /\ useLocalTime st' = useLocalTime st
    /\ List.filter on_OE (out st') = List.filter on_OE (out st).
Proof.
  induction n as [|n IH]; intros i st; cbv zeta.
  - repeat split.
  - unfold exec. cbn [for_down_from]. rewrite run_bind, run_bind.
    set (st1 := snd (load_digit a i st)).
    set (b := fst (load_digit a i st)).
    assert (digit st1 = digit st /\ useLocalTime st1 = useLocalTime st
            /\ out st1 = out st) as (Hd & Hu & Ho).
    { subst st1. unfold load_digit, load.
      destruct (in_bounds (digit st) i); repeat split. }
    cbn [SPI_transfer fst snd].
    destruct (IH (i - 1) (emit (EvTransfer b) st1)) as (Hd' & Hu' & Ho').
    unfold exec in Hd', Hu', Ho'. rewrite Hd', Hu', Ho'.
    cbn [emit digit useLocalTime out].
    rewrite List.filter_app, Ho. cbn. rewrite app_nil_r. auto.
Qed.

(** X1.  [writeDisplay] only sends: whatever the machine is, it leaves the
    frame buffer and [useLocalTime] as they were and writes nothing to the
    output-enable pin: the writes to that pin found in the output are the
    ones that were there before, so what the pin carries stays. *)
Theorem writeDisplay_keeps_state st :
  digit (exec Clock.writeDisplay st) = digit st
  /\ useLocalTime (exec Clock.writeDisplay st) = useLocalTime st
  /\ List.filter on_OE (out (exec Clock.writeDisplay st)) = List.filter on_OE (out st)
  /\ OE_signal (exec Clock.writeDisplay st) = OE_signal st.
Proof.
  unfold Clock.writeDisplay, for_downto, exec. rewrite run_bind.
  destruct (transfer_loop_keeps Digit (Z.to_nat (6 - 0 + 1)) 6 st) as (Hd & Hu & Ho).
  unfold exec in Hd, Hu, Ho.
  set (st1 := snd (for_down_from (Z.to_nat (6 - 0 + 1)) 6
                     (fun i => b ← load_digit Digit i; SPI_transfer b) st)) in *.
  clearbody st1. rewrite run_bind.
  unfold OE_signal. cbn [digitalWrite emit fst snd digit useLocalTime out].
  rewrite !List.filter_app, Ho. cbn [List.filter on_OE]. rewrite !app_nil_r. auto.
Qed.

(** X2.  Sending an unchanged six-position frame again sends the same
    sequence again: two calls of [writeDisplay] in a row put the same
    seven bytes and latch pulse on the wire twice. *)
Theorem writeDisplay_twice st :
  length (digit st) = 6%nat ->
  out (exec (Clock.writeDisplay;; Clock.writeDisplay) st)
  = out st ++ frame_sent Digit st ++ frame_sent Digit st.
Proof.
  intros H. unfold exec. rewrite run_bind, (writeDisplay_run st H). cbn [fst snd].
  rewrite writeDisplay_run by exact H. cbn [snd out digit outside].
  unfold frame_sent. rewrite <- app_assoc. reflexivity.
Qed.

Lemma writeDisplay_twice_witness :
  out (exec (Clock.writeDisplay;; Clock.writeDisplay) (set_digit [1; 2; 3; 4; 5; 6] boot))
  = map EvTransfer [0; 6; 5; 4; 3; 2; 1] ++ latch_pulse
    ++ map EvTransfer [0; 6; 5; 4; 3; 2; 1] ++ latch_pulse.
Proof.
  exact (writeDisplay_twice (set_digit [1; 2; 3; 4; 5; 6] boot) eq_refl).
Defined.

(** X3.  What an encoder sends is the frame it has just built: after
    [showTime], [showDate] or [showString] (values within the tables, at
    most six characters) the wire has received, after the one byte fetched
    from behind the buffer, the six bytes now in [digit], last position
    first, and one latch pulse. *)
Theorem encoders_send_their_frame cfg h m s mo d yr str st :
  length (digit st) = 6%nat ->
  0 <= h <= 489 -> 0 <= m <= 489 -> 0 <= s <= 489 ->
  0 <= mo <= 489 -> 0 <= d <= 489 -> 2000 <= yr <= 2489 ->
  strlen str <= 6 ->
  out (exec (Clock.showTime cfg h m s) st)
  = out st ++ frame_sent Digit (exec (Clock.showTime cfg h m s) st)
  /\ out (exec (Clock.showDate mo d yr) st)
     = out st ++ frame_sent Digit (exec (Clock.showDate mo d yr) st)
  /\ out (exec (Clock.showString str) st)
     = out st ++ frame_sent Digit (exec (Clock.showString str) st).
Proof.
  intros H Hh Hm Hs Hmo Hd Hy Hn.
  destruct (showString_run str st H Hn) as (l & Hlen & _ & Hrun).
  destruct (six_cells l Hlen) as (l0 & l1 & l2 & l3 & l4 & l5 & ->).
  destruct st as [dg u o oz sy]. cbn [digit] in H.
  destruct (six_cells dg H) as (d0 & d1 & d2 & d3 & d4 & d5 & ->).
  unfold exec. rewrite Hrun.
  rewrite showTime_run; [|apply displayed_hour_range; lia | lia | lia].
  rewrite showDate_run by lia.
  repeat split.
Qed.

Lemma encoders_send_their_frame_witness :
  out (exec (Clock.showString "no nEt") boot)
  = frame_sent Digit (exec (Clock.showString "no nEt") boot).
Proof.
  refine (proj2 (proj2 (encoders_send_their_frame Clock.sketch 23 59 0 6 22 2023
                          "no nEt" boot eq_refl _ _ _ _ _ _ _)));
    solve [split; discriminate | discriminate].
Defined.

(** ** Glyphs *)

Lemma below_49 (P : nat -> bool) :
  forallb P (seq 0 49) = true -> forall i, 0 <= i <= 48 -> P (Z.to_nat i) = true.
Proof.
  intros H i Hi. rewrite forallb_forall in H. apply H. apply in_seq. lia.
Qed.

Lemma glyph_alpha c st : eval (Clock.alpha c) st = glyph c.
Proof. unfold eval. rewrite alpha_run. reflexivity. Qed.

Lemma alpha_index_unknown c : known c = false -> alpha_index c = 48.
Proof.
  intros H. destruct (alpha_index_stop c) as (Hr & Hm & _).
  destruct (Z.eq_dec (alpha_index c) 48) as [E|E]; [exact E|].
  assert (alpha_index c < 48) as Hlt by lia.
  pose proof (char_at_known (alpha_index c) ltac:(lia)) as Hk.
  rewrite <- (Hm Hlt) in Hk. congruence.
Qed.

Lemma alpha_index_known c : known c = true -> alpha_index c < 48.
Proof.
  intros H. destruct (known_has_index c H) as (i & Hi & <-).
  rewrite alpha_index_of_known by exact Hi. lia.
Qed.

(** X4.  Whatever the character, the pattern [alpha] returns is a byte
    whose bit 3, the decimal point of the "dcagxfeb" map, is off: no glyph
    of the table ever lights the decimal point. *)
Theorem alpha_never_lights_point c st :
  0 <= eval (Clock.alpha c) st <= 255
  /\ Z.testbit (eval (Clock.alpha c) st) 3 = false.
Proof.
  rewrite glyph_alpha. unfold glyph.
  pose proof (alpha_index_stop c) as [Hr _].
  pose proof (below_49
    (fun n => (0 <=? seg (Z.of_nat n)) && (seg (Z.of_nat n) <=? 255)
              && negb (Z.testbit (seg (Z.of_nat n)) 3))
    eq_refl (alpha_index c) Hr) as H.
  cbv beta in H. rewrite Z2Nat.id in H by lia.
  apply andb_true_iff in H as [H H3]. apply andb_true_iff in H as [H0 H1].
  apply Z.leb_le in H0, H1. apply negb_true_iff in H3. auto.
Qed.

(** X5.  [alpha] returns the all-off pattern for exactly two kinds of
    character: the space, and the characters that are not in [knownChars].
    Every other known character lights at least one segment. *)
Theorem alpha_blank_iff c st :
  eval (Clock.alpha c) st = 0 <-> c = " "%char \/ known c = false.
Proof.
  rewrite glyph_alpha. unfold glyph. split.
  - intros H0.
    destruct (known c) eqn:K; [left | right; reflexivity].
    pose proof (alpha_index_known c K) as Hlt.
    destruct (alpha_index_stop c) as (Hr & Hm & _).
    pose proof (below_49
      (fun n => negb (seg (Z.of_nat n) =? 0) || (Z.of_nat n =? 38) || (Z.of_nat n =? 48))
      eq_refl (alpha_index c) Hr) as H.
    cbv beta in H. rewrite Z2Nat.id in H by lia.
    rewrite H0 in H. cbn [Z.eqb negb orb] in H.
    apply orb_true_iff in H as [H|H]; apply Z.eqb_eq in H; [|lia].
    rewrite (Hm Hlt), H. reflexivity.
  - intros [-> | K]; [reflexivity|].
    rewrite (alpha_index_unknown c K). reflexivity.
Qed.

(** ** Messages *)

Lemma showString_six_run str st :
  length (digit st) = 6%nat -> strlen str = 6 ->
  Clock.showString str st
  = (tt, Machine (map glyph (six_chars str)) (useLocalTime st)
           (out st ++ EvTransfer (outside st Digit 6)
              :: map EvTransfer (rev (map glyph (six_chars str))) ++ latch_pulse)
           (outside st) (stray st ++ [(Digit, 6, Rd)])).
Proof.
  intros H Hn.
  destruct (showString_run str st H ltac:(lia)) as (l & Hlen & Hl & Hrun).
  destruct (six_cells l Hlen) as (l0 & l1 & l2 & l3 & l4 & l5 & ->).
  rewrite Hn in Hl.
  pose proof (Hl 0%nat) as E0. pose proof (Hl 1%nat) as E1.
  pose proof (Hl 2%nat) as E2. pose proof (Hl 3%nat) as E3.
  pose proof (Hl 4%nat) as E4. pose proof (Hl 5%nat) as E5.
  cbn in E0, E1, E2, E3, E4, E5.
  injection E0 as ->. injection E1 as ->. injection E2 as ->.
  injection E3 as ->. injection E4 as ->. injection E5 as ->.
  exact Hrun.
Qed.

(** X6.  A message of exactly six characters replaces the whole frame:
    after [showString] each position holds the pattern [alpha] gives for
    the character at that position, whatever the frame held before. *)
Theorem showString_six_chars str st :
  length (digit st) = 6%nat ->
  strlen str = 6 ->
  digit (exec (Clock.showString str) st)
  = map (fun c => eval (Clock.alpha c) st) (six_chars str).
Proof.
  intros H Hn. unfold exec. rewrite showString_six_run by assumption.
  cbn [snd digit]. apply map_ext. intros c. rewrite glyph_alpha. reflexivity.
Qed.

Lemma showString_six_chars_witness :
  digit (exec (Clock.showString " LOCAL") (exec (Clock.showString "brucE ") boot))
  = [0; bin "10000110"; bin "11100111"; bin "10100110"; bin "01110111";
     bin "10000110"].
Proof.
  exact (showString_six_chars " LOCAL" (exec (Clock.showString "brucE ") boot)
           eq_refl eq_refl).
Defined.

(** ** The numeric encoders against the glyph table *)

Lemma digit_char_facts d :
  0 <= d <= 9 ->
  glyph (digit_char d) = seg d /\ Ascii.eqb (digit_char d) NUL = false.
Proof.
  intros H. destruct (level_cases d ltac:(lia)) as [E|E];
    repeat (destruct E as [E|E]); subst d; try lia; split; reflexivity.
Qed.

Lemma split_digits x :
  0 <= x <= 99 -> 0 <= x ÷ 10 <= 9 /\ 0 <= Z.rem x 10 <= 9.
Proof.
  intros Hx. rewrite Z.quot_div_nonneg, Z.rem_mod_nonneg by lia.
  pose proof (Z.mod_pos_bound x 10 ltac:(lia)).
  pose proof (Z.div_pos x 10 ltac:(lia) ltac:(lia)).
  pose proof (Z.div_lt_upper_bound x 10 10 ltac:(lia) ltac:(lia)).
  lia.
Qed.

Lemma six_glyphs c0 c1 c2 c3 c4 c5 st :
  length (digit st) = 6%nat ->
  Ascii.eqb c0 NUL = false -> Ascii.eqb c1 NUL = false ->
  Ascii.eqb c2 NUL = false -> Ascii.eqb c3 NUL = false ->
  Ascii.eqb c4 NUL = false -> Ascii.eqb c5 NUL = false ->
  Clock.showString
    (String c0 (String c1 (String c2 (String c3 (String c4 (String c5 EmptyString))))))
    st
  = (tt, Machine [glyph c0; glyph c1; glyph c2; glyph c3; glyph c4; glyph c5]
           (useLocalTime st)
           (out st ++ EvTransfer (outside st Digit 6)
              :: map EvTransfer [glyph c5; glyph c4; glyph c3; glyph c2; glyph c1; glyph c0]
              ++ latch_pulse)
           (outside st) (stray st ++ [(Digit, 6, Rd)])).
Proof.
  intros H N0 N1 N2 N3 N4 N5.
  rewrite showString_six_run; [reflexivity | exact H |].
  unfold strlen. cbn [strlen_nat]. rewrite N0, N1, N2, N3, N4, N5. reflexivity.
Qed.

(** X7.  [showDate] agrees with the glyph table: for a month and a day of
    at most two digits and a year from 2000 to 2099 it does to the machine
    exactly what [showString] does with the six decimal digits of month,
    day and two-digit year as text. *)
Theorem showDate_as_text mo d yr st :
  length (digit st) = 6%nat ->
  0 <= mo <= 99 -> 0 <= d <= 99 -> 2000 <= yr <= 2099 ->
  Clock.showDate mo d yr st = Clock.showString (date_text mo d yr) st.
Proof.
  intros H Hmo Hd Hy.
  destruct (split_digits mo Hmo) as [M1 M2].
  destruct (split_digits d Hd) as [D1 D2].
  destruct (split_digits (yr - 2000) ltac:(lia)) as [Y1 Y2].
  destruct (digit_char_facts _ M1) as [GM1 NM1].
  destruct (digit_char_facts _ M2) as [GM2 NM2].
  destruct (digit_char_facts _ D1) as [GD1 ND1].
  destruct (digit_char_facts _ D2) as [GD2 ND2].
  destruct (digit_char_facts _ Y1) as [GY1 NY1].
  destruct (digit_char_facts _ Y2) as [GY2 NY2].
  change (date_text mo d yr)
    with (String (digit_char (mo ÷ 10)) (String (digit_char (Z.rem mo 10))
         (String (digit_char (d ÷ 10)) (String (digit_char (Z.rem d 10))
         (String (digit_char ((yr - 2000) ÷ 10))
         (String (digit_char (Z.rem (yr - 2000) 10)) EmptyString)))))).
  rewrite six_glyphs by assumption.
  rewrite GM1, GM2, GD1, GD2, GY1, GY2.
  destruct st as [dg u o oz sy]. cbn [digit] in H.
  destruct (six_cells dg H) as (d0 & d1 & d2 & d3 & d4 & d5 & ->).
  apply showDate_run; lia.
Qed.

Lemma showDate_as_text_witness :
  Clock.showDate 6 22 2023 boot = Clock.showString "062223" boot.
Proof.
  refine (showDate_as_text 6 22 2023 boot eq_refl _ _ _); split; discriminate.
Defined.

(** X8.  [showTime] agrees with the glyph table: for hour, minute and
    second values of at most two digits it does to the machine exactly what
    [showString] does with the clock reading as text, the blanked leading
    hour position being a space. *)
Theorem showTime_as_text cfg h m s st :
  length (digit st) = 6%nat ->
  0 <= h <= 99 -> 0 <= m <= 99 -> 0 <= s <= 99 ->
  Clock.showTime cfg h m s st
  = Clock.showString
      (clock_text (Clock.HOUR_LEADING_ZERO cfg) (eval (Clock.mode12h cfg) st) h m s) st.
Proof.
  intros H Hh Hm Hs.
  set (twelve := eval (Clock.mode12h cfg) st).
  set (dh := if twelve then hour12 h else h).
  assert (0 <= dh <= 99) as Hdh.
  { subst dh. destruct twelve; [|exact Hh]. unfold hour12.
    destruct (h =? 0); [lia|]. destruct (12 <? h) eqn:E; [|exact Hh].
    apply Z.ltb_lt in E. lia. }
  destruct (split_digits dh Hdh) as [H1 H2].
  destruct (split_digits m Hm) as [M1 M2].
  destruct (split_digits s Hs) as [S1 S2].
  destruct (digit_char_facts _ H1) as [GH1 NH1].
  destruct (digit_char_facts _ H2) as [GH2 NH2].
  destruct (digit_char_facts _ M1) as [GM1 NM1].
  destruct (digit_char_facts _ M2) as [GM2 NM2].
  destruct (digit_char_facts _ S1) as [GS1 NS1].
  destruct (digit_char_facts _ S2) as [GS2 NS2].
  set (blank := (dh <? 10) && negb (Clock.HOUR_LEADING_ZERO cfg) && twelve).
  set (lead := if blank then " "%char else digit_char (dh ÷ 10)).
  change (clock_text (Clock.HOUR_LEADING_ZERO cfg) twelve h m s)
    with (String lead (String (digit_char (Z.rem dh 10))
         (String (digit_char (m ÷ 10)) (String (digit_char (Z.rem m 10))
         (String (digit_char (s ÷ 10))
         (String (digit_char (Z.rem s 10)) EmptyString)))))).
  assert (Ascii.eqb lead NUL = false) as NL.
  { subst lead. destruct blank; [reflexivity | exact NH1]. }
  assert (glyph lead = if blank then 0 else seg (dh ÷ 10)) as GL.
  { subst lead. destruct blank; [reflexivity | exact GH1]. }
  rewrite six_glyphs by assumption.
  rewrite GL, GH2, GM1, GM2, GS1, GS2.
  destruct st as [dg u o oz sy]. cbn [digit] in H.
  destruct (six_cells dg H) as (d0 & d1 & d2 & d3 & d4 & d5 & ->).
  subst blank dh twelve. unfold eval, hour12.
  cbn [Clock.mode12h fst useLocalTime outside out stray].
  rewrite <- twelve_hour_cases.
  apply showTime_run; [|lia|lia].
  apply displayed_hour_range. lia.
Qed.

Lemma showTime_as_text_witness :
  Clock.showTime Clock.sketch 13 5 9 boot = Clock.showString " 10509" boot.
Proof.
  refine (showTime_as_text Clock.sketch 13 5 9 boot eq_refl _ _ _); split; discriminate.
Defined.

(** X9.  In twelve-hour mode the six-digit clock cannot tell morning from
    afternoon: for an hour from 0 to 11, [showTime] does exactly the same
    with that hour and with the hour twelve hours later. *)
Theorem showTime_am_pm_alike cfg h m s st :
  eval (Clock.mode12h cfg) st = true ->
  0 <= h <= 11 ->
  Clock.showTime cfg h m s st = Clock.showTime cfg (h + 12) m s st.
Proof.
  intros H12 Hh. unfold eval in H12. unfold Clock.showTime.
  rewrite !run_bind. rewrite H12.
  assert (Clock.mode12h cfg st = (true, st)) as E.
  { unfold Clock.mode12h in *. cbn [fst] in H12. rewrite H12. reflexivity. }
  rewrite E. cbn [snd]. cbv zeta.
  assert ((if 12 <? (if h =? 0 then 12 else h)
           then (if h =? 0 then 12 else h) - 12 else if h =? 0 then 12 else h)
          = (if 12 <? (if h + 12 =? 0 then 12 else h + 12)
             then (if h + 12 =? 0 then 12 else h + 12) - 12
             else if h + 12 =? 0 then 12 else h + 12)) as ->; [|reflexivity].
  replace (h + 12 =? 0) with false by (symmetry; apply Z.eqb_neq; lia).
  destruct (h =? 0) eqn:E0.
  - apply Z.eqb_eq in E0. subst h. reflexivity.
  - apply Z.eqb_neq in E0.
    replace (12 <? h) with false by (symmetry; apply Z.ltb_ge; lia).
    replace (12 <? h + 12) with true by (symmetry; apply Z.ltb_lt; lia).
    lia.
Qed.

Lemma showTime_am_pm_alike_witness :
  Clock.showTime Clock.sketch 0 30 0 boot = Clock.showTime Clock.sketch 12 30 0 boot.
Proof.
  refine (showTime_am_pm_alike Clock.sketch 0 30 0 boot eq_refl _); split; discriminate.
Defined.

(** ** The push button and the start-up show *)

Lemma tables_respected_app st st' more :
  stray st' = stray st ++ more ->
  List.filter table_or_store more = [] ->
  tables_respected st st'.
Proof.
  intros E Hm. unfold tables_respected.
  rewrite E, List.filter_app, Hm. apply app_nil_r.
Qed.

Lemma handleSwitch_held_run reading loc utc d0 d1 d2 d3 d4 d5 u o oz sy :
  250 < reading ->
  exists evs,
    Clock.handleSwitch reading loc utc (Machine [d0; d1; d2; d3; d4; d5] u o oz sy)
    = (tt, Machine (map glyph (six_chars (if negb u then " LOCAL" else "   UtC")))
             (negb u) (o ++ evs) oz (sy ++ [(Digit, 6, Rd); (Digit, 6, Rd)]))
    /\ evs = sent (oz Digit 6) (message "  dAtE")
              ++ sent (oz Digit 6) (message (if negb u then " LOCAL" else "   UtC")).
Proof.
  intros Hr. apply Z.ltb_lt in Hr.
  unfold Clock.handleSwitch, Clock.switchPressed. rewrite Hr.
  destruct u; eexists; (split; [cbv -[app]; rewrite <- !app_assoc|]); reflexivity.
Qed.

(** X10.  Holding the button through [handleSwitch] flips [useLocalTime],
    and the frame left in the buffer and on the display names the zone now
    in use: " LOCAL" when the flag has become true, "   UtC" when it has
    become false.  What goes out is the frame "  dAtE" and then that frame,
    each sent as [writeDisplay] sends a frame (the byte from behind the
    buffer, the six bytes last position first, one latch pulse), and
    nothing else.  With the options of the sketch the twelve-hour mode
    flips with the flag.  No table read and no store leaves its array; the
    two reads behind the buffer are the only stray accesses. *)
Theorem handleSwitch_held reading loc utc st :
  length (digit st) = 6%nat ->
  250 < reading ->
  let st' := exec (Clock.handleSwitch reading loc utc) st in
  useLocalTime st' = negb (useLocalTime st)
  /\ digit st'
     = map (fun c => eval (Clock.alpha c) st)
         (six_chars (if useLocalTime st' then " LOCAL" else "   UtC"))
  /\ eval (Clock.mode12h Clock.sketch) st' = negb (eval (Clock.mode12h Clock.sketch) st)
  /\ tables_respected st st'
  /\ out st'
     = out st
       ++ sent (outside st Digit 6)
            (map (fun c => eval (Clock.alpha c) st) (six_chars "  dAtE"))
       ++ sent (outside st Digit 6) (digit st')
  /\ stray st' = stray st ++ [(Digit, 6, Rd); (Digit, 6, Rd)]
  /\ outside st' = outside st.
Proof.
  intros H Hr. destruct st as [dg u o oz sy]. cbn [digit] in H.
  destruct (six_cells dg H) as (d0 & d1 & d2 & d3 & d4 & d5 & ->).
  destruct (handleSwitch_held_run reading loc utc d0 d1 d2 d3 d4 d5 u o oz sy Hr)
    as (evs & E & Hevs).
  cbv zeta. unfold exec. rewrite E. cbn [snd useLocalTime digit out stray outside].
  assert (forall s, map (fun c => eval (Clock.alpha c) (Machine [d0; d1; d2; d3; d4; d5] u o oz sy))
                      (six_chars s) = message s) as Hmsg.
  { intros s. unfold message. apply map_ext. intros c. rewrite glyph_alpha. reflexivity. }
  split; [reflexivity|]. split; [|split; [|split; [|split; [|split]]]].
  - rewrite Hmsg. reflexivity.
  - unfold eval. cbn. destruct u; reflexivity.
  - apply (tables_respected_app _ _ [(Digit, 6, Rd); (Digit, 6, Rd)]); reflexivity.
  - rewrite Hmsg, Hevs. reflexivity.
  - reflexivity.
  - reflexivity.
Qed.

Lemma handleSwitch_held_witness :
  useLocalTime (exec (Clock.handleSwitch 1023 (6, 22, 2023) (6, 23, 2023)) boot) = false
  /\ digit (exec (Clock.handleSwitch 1023 (6, 22, 2023) (6, 23, 2023)) boot)
     = [0; 0; 0; bin "11000111"; bin "10010110"; bin "10100110"].
Proof.
  pose proof (handleSwitch_held 1023 (6, 22, 2023) (6, 23, 2023) boot eq_refl eq_refl)
    as (H1 & H2 & _).
  exact (conj H1 H2).
Defined.

(** X11.  A button released within the first second (reading at most
    250) makes [handleSwitch] show the date of the zone in use, the local
    date when [useLocalTime] is set and the UTC date otherwise, and leaves
    [useLocalTime] as it was.  For a month and a day from 0 to 489 and a
    year from 2000 to 2489 of that date: the buffer ends with the two-digit
    splittings of month, day and year - 2000; what goes out is the frame
    "  dAtE" and then that date frame, each sent as [writeDisplay] sends a
    frame, and nothing else; the two reads behind the buffer are the only
    stray accesses. *)
Theorem handleSwitch_released reading lm ld ly um ud uy st :
  length (digit st) = 6%nat ->
  reading <= 250 ->
  let mo := if useLocalTime st then lm else um in
  let d := if useLocalTime st then ld else ud in
  let yr := if useLocalTime st then ly else uy in
  0 <= mo <= 489 -> 0 <= d <= 489 -> 2000 <= yr <= 2489 ->
  let st' := exec (Clock.handleSwitch reading (lm, ld, ly) (um, ud, uy)) st in
  useLocalTime st' = useLocalTime st
  /\ digit st'
     = [seg (mo ÷ 10); seg (Z.rem mo 10); seg (d ÷ 10); seg (Z.rem d 10);
        seg ((yr - 2000) ÷ 10); seg (Z.rem (yr - 2000) 10)]
  /\ out st'
     = out st
       ++ sent (outside st Digit 6)
            (map (fun c => eval (Clock.alpha c) st) (six_chars "  dAtE"))
       ++ sent (outside st Digit 6) (digit st')
  /\ stray st' = stray st ++ [(Digit, 6, Rd); (Digit, 6, Rd)]
  /\ outside st' = outside st.
Proof.
  intros H Hr mo d yr Hmo Hd Hy.
  assert (forall s, map (fun c => eval (Clock.alpha c) st) (six_chars s) = message s)
    as Hmsg.
  { intros s. unfold message. apply map_ext. intros c. rewrite glyph_alpha. reflexivity. }
  cbv zeta. rewrite Hmsg. clear Hmsg.
  apply Z.ltb_ge in Hr.
  destruct st as [dg u o oz sy]. cbn [digit] in H. cbn [useLocalTime] in mo, d, yr.
  destruct (six_cells dg H) as (d0 & d1 & d2 & d3 & d4 & d5 & ->).
  unfold exec, Clock.handleSwitch, Clock.switchPressed. rewrite Hr. cbn [negb].
  rewrite !run_bind.
  rewrite (six_glyphs " " " " "d" "A" "t" "E") by reflexivity.
  cbn [fst snd delay mret M_ret get_useLocalTime useLocalTime digit out outside stray].
  assert (Clock.showDate mo d yr
            (Machine [glyph " "; glyph " "; glyph "d"; glyph "A"; glyph "t"; glyph "E"] u
               (o ++ EvTransfer (oz Digit 6)
                  :: map EvTransfer [glyph "E"; glyph "t"; glyph "A"; glyph "d";
                                     glyph " "; glyph " "] ++ latch_pulse)
               oz (sy ++ [(Digit, 6, Rd)]))
          = (if u then Clock.showDate lm ld ly else Clock.showDate um ud uy)
              (Machine [glyph " "; glyph " "; glyph "d"; glyph "A"; glyph "t"; glyph "E"] u
                 (o ++ EvTransfer (oz Digit 6)
                    :: map EvTransfer [glyph "E"; glyph "t"; glyph "A"; glyph "d";
                                       glyph " "; glyph " "] ++ latch_pulse)
                 oz (sy ++ [(Digit, 6, Rd)]))) as E.
  { subst mo d yr. destruct u; reflexivity. }
  assert ((let '(mo0, d0', yr0) := if u then (lm, ld, ly) else (um, ud, uy) in
           Clock.showDate mo0 d0' yr0)
          = (if u then Clock.showDate lm ld ly else Clock.showDate um ud uy)) as E2.
  { destruct u; reflexivity. }
  rewrite E2, <- E. rewrite showDate_run by (cbv zeta; lia).
  cbn [fst snd useLocalTime digit out outside stray].
  repeat split.
  - unfold sent, message. rewrite <- app_assoc. reflexivity.
  - rewrite <- app_assoc. reflexivity.
Qed.

Lemma handleSwitch_released_witness :
  useLocalTime (exec (Clock.handleSwitch 0 (6, 22, 2023) (6, 23, 2023)) boot) = true
  /\ digit (exec (Clock.handleSwitch 0 (6, 22, 2023) (6, 23, 2023)) boot)
     = [bin "11100111"; bin "11110110"; bin "10110011"; bin "10110011";
        bin "10110011"; bin "11110001"].
Proof.
  pose proof (handleSwitch_released 0 6 22 2023 6 23 2023 boot eq_refl
                ltac:(discriminate) ltac:(split; discriminate)
                ltac:(split; discriminate) ltac:(split; discriminate))
    as (H1 & H2 & _).
  exact (conj H1 H2).
Defined.

Lemma startupScreen_run reading d0 d1 d2 d3 d4 d5 u o oz sy :
  reading <= 250 ->
  exists evs,
    Clock.startupScreen reading (Machine [d0; d1; d2; d3; d4; d5] u o oz sy)
    = (tt, Machine (message "  HALL") u (o ++ evs) oz
             (sy ++ repeat (Digit, 6, Rd) 11))
    /\ evs = startup_show (oz Digit 6).
Proof.
  intros Hr. apply Z.ltb_ge in Hr.
  unfold Clock.startupScreen, Clock.switchPressed. rewrite Hr.
  eexists. split; [cbv -[app]; rewrite <- !app_assoc|]; reflexivity.
Qed.

Lemma startup_show_OE x :
  last (List.filter on_OE (startup_show x)) = Some (EvDigital OE 0).
Proof. reflexivity. Qed.

(** X12.  [startupScreen] with the button pressed (reading above 250) does
    nothing.  Otherwise, from any six-position frame, it sends exactly
    this, in this order: the nine frames that show the counts 0 to 8 on all
    six positions, four times "off, on" on the output-enable pin, the
    frame "brucE " and the frame "  HALL", each frame sent as
    [writeDisplay] sends a frame (the byte from behind the buffer, six
    bytes, one latch pulse).  It ends with "  HALL" in the buffer and the
    display enabled (the last write to the output-enable pin is 0), leaves
    [useLocalTime] alone, and its stray accesses are exactly eleven reads
    of [digit] at index 6, one for each frame sent: no table read and no
    store leaves its array. *)
Theorem startupScreen_ends_enabled reading st :
  length (digit st) = 6%nat ->
  let st' := exec (Clock.startupScreen reading) st in
  if 250 <? reading then st' = st
  else digit st' = map (fun c => eval (Clock.alpha c) st) (six_chars "  HALL")
       /\ OE_signal st' = Some (EvDigital OE 0)
       /\ useLocalTime st' = useLocalTime st
       /\ tables_respected st st'
       /\ length (stray st') = (length (stray st) + 11)%nat
       /\ out st' = out st ++ startup_show (outside st Digit 6)
       /\ stray st' = stray st ++ repeat (Digit, 6, Rd) 11
       /\ outside st' = outside st.
Proof.
  intros H. cbv zeta. destruct (250 <? reading) eqn:Hr.
  - unfold exec, Clock.startupScreen, Clock.switchPressed. rewrite Hr. reflexivity.
  - apply Z.ltb_ge in Hr.
    destruct st as [dg u o oz sy]. cbn [digit] in H.
    destruct (six_cells dg H) as (d0 & d1 & d2 & d3 & d4 & d5 & ->).
    destruct (startupScreen_run reading d0 d1 d2 d3 d4 d5 u o oz sy Hr)
      as (evs & E & ->).
    unfold exec. rewrite E. cbn [snd digit useLocalTime stray out outside].
    split; [|split; [|split; [|split; [|split; [|split; [|split]]]]]].
    + unfold message. apply map_ext. intros c. rewrite glyph_alpha. reflexivity.
    + unfold OE_signal. cbn [out].
      rewrite List.filter_app, last_app, startup_show_OE. reflexivity.
    + reflexivity.
    + apply (tables_respected_app _ _ (repeat (Digit, 6, Rd) 11)); reflexivity.
    + rewrite length_app. reflexivity.
    + reflexivity.
    + reflexivity.
    + reflexivity.
Qed.

Lemma startupScreen_ends_enabled_witness :
  digit (exec (Clock.startupScreen 0) boot)
  = [0; 0; bin "01010111"; bin "01110111"; bin "10000110"; bin "10000110"]
  /\ OE_signal (exec (Clock.startupScreen 0) boot) = Some (EvDigital OE 0)
  /\ stray (exec (Clock.startupScreen 0) boot) = repeat (Digit, 6, Rd) 11.
Proof.
  pose proof (startupScreen_ends_enabled 0 boot eq_refl)
    as (H1 & H2 & _ & _ & _ & _ & H7 & _).
  exact (conj H1 (conj H2 H7)).
Defined.

(** X13.  The brightness and the on/off switch share the output-enable
    pin, and the later call wins: after [enableDisplay] a valid
    [setBrightness] leaves its PWM duty on the pin while an out-of-range
    level leaves the on/off level there; [enableDisplay] after
    [setBrightness] always leaves the plain on/off level (0 for on, 1 for
    off).  Neither touches the frame buffer. *)
Theorem output_enable_last_write_wins (on : bool) level st :
  OE_signal (exec (Clock.enableDisplay on;; Clock.setBrightness level) st)
  = Some (if (0 <=? level) && (level <=? 10)
          then EvAnalog OE (duty level)
          else EvDigital OE (if on then 0 else 1))
  /\ OE_signal (exec (Clock.setBrightness level;; Clock.enableDisplay on) st)
     = Some (EvDigital OE (if on then 0 else 1))
  /\ digit (exec (Clock.enableDisplay on;; Clock.setBrightness level) st) = digit st
  /\ digit (exec (Clock.setBrightness level;; Clock.enableDisplay on) st) = digit st.
Proof.
  unfold exec. rewrite !run_bind.
  cbn [Clock.enableDisplay digitalWrite fst snd].
  destruct ((0 <=? level) && (level <=? 10)) eqn:E.
  - apply andb_true_iff in E as [E1 E2]. apply Z.leb_le in E1, E2.
    rewrite !setBrightness_run by lia. cbn [snd].
    rewrite !OE_signal_emit by reflexivity. repeat split.
  - assert (forall s, Clock.setBrightness level s = (tt, s)) as Hs.
    { intros s. unfold Clock.setBrightness. rewrite E. reflexivity. }
    rewrite !Hs. cbn [snd].
    rewrite !OE_signal_emit by reflexivity. repeat split.
Qed.

(** ** The Step5 sketch against the six-digit clock *)

Lemma segments_digit d :
  0 <= d <= 9 ->
  in_bounds Step5.segments d = true
  /\ nth (Z.to_nat d) Step5.segments 0 = seg d
  /\ in_bounds Step4.segments d = true
  /\ nth (Z.to_nat d) Step4.segments 0 = seg d
  /\ 0 <= seg d <= 255.
Proof.
  intros H. destruct (level_cases d ltac:(lia)) as [E|E];
    repeat (destruct E as [E|E]); subst d; try lia; repeat split; discriminate.
Qed.

Lemma Step5_showTime_run h m s d0 d1 d2 d3 d4 d5 u o oz sy :
  0 <= h <= 99 -> 0 <= m <= 99 -> 0 <= s <= 99 ->
  Step5.showTime h m s (Machine [d0; d1; d2; d3; d4; d5] u o oz sy)
  = (tt, Machine [seg (hour12 h ÷ 10); seg (Z.rem (hour12 h) 10); seg (m ÷ 10);
                  seg (Z.rem m 10); seg (s ÷ 10); seg (Z.rem s 10)] u
           (o ++ EvTransfer (oz Tube 6)
              :: map EvTransfer [seg (Z.rem s 10); seg (s ÷ 10); seg (Z.rem m 10);
                                 seg (m ÷ 10); seg (Z.rem (hour12 h) 10);
                                 seg (hour12 h ÷ 10)]
              ++ latch_pulse)
           oz (sy ++ [(Tube, 6, Rd)])).
Proof.
  intros Hh Hm Hs.
  assert (0 <= hour12 h <= 99) as Hdh.
  { unfold hour12. destruct (h =? 0); [lia|]. destruct (12 <? h) eqn:E; [|exact Hh].
    apply Z.ltb_lt in E. lia. }
  destruct (split_digits _ Hdh) as [H1 H2].
  destruct (split_digits m Hm) as [M1 M2].
  destruct (split_digits s Hs) as [S1 S2].
  destruct (segments_digit _ H1) as (BH1 & VH1 & _).
  destruct (segments_digit _ H2) as (BH2 & VH2 & _).
  destruct (segments_digit _ M1) as (BM1 & VM1 & _).
  destruct (segments_digit _ M2) as (BM2 & VM2 & _).
  destruct (segments_digit _ S1) as (BS1 & VS1 & _).
  destruct (segments_digit _ S2) as (BS2 & VS2 & _).
  unfold Step5.showTime, Step5.FORMAT_12HR. rewrite twelve_hour_cases.
  fold (hour12 h).
  do 12 step.
  rewrite VH1, VH2, VM1, VM2, VS1, VS2.
  apply transfer_loop_run.
Qed.

(** X14.  The Step5 clock and the six-digit clock agree: for a time of day
    (hour 0 to 23, minute and second 0 to 59) Step5's [showTime] builds the
    very frame that the six-digit clock builds in twelve-hour local mode
    with the leading zero shown, reading its ten-entry table [segments]
    inside its bounds, and sends that frame. *)
Theorem Step5_showTime_matches_clock utc h m s st :
  length (digit st) = 6%nat ->
  useLocalTime st = true ->
  0 <= h <= 23 -> 0 <= m <= 59 -> 0 <= s <= 59 ->
  Step5.tube (exec (Step5.showTime h m s) st)
  = digit (exec (Clock.showTime (Clock.Config true utc true) h m s) st)
  /\ out (exec (Step5.showTime h m s) st)
     = out st ++ frame_sent Tube (exec (Step5.showTime h m s) st)
  /\ tables_respected st (exec (Step5.showTime h m s) st).
Proof.
  intros H Hu Hh Hm Hs. destruct st as [dg u o oz sy]. cbn [digit useLocalTime] in H, Hu.
  destruct (six_cells dg H) as (d0 & d1 & d2 & d3 & d4 & d5 & ->). subst u.
  unfold exec, Step5.tube.
  rewrite Step5_showTime_run by lia.
  rewrite showTime_run; [|apply displayed_hour_range; lia | lia | lia].
  cbn [snd digit out andb orb negb Clock.LOCAL_FORMAT_12HR Clock.HOUR_LEADING_ZERO].
  rewrite twelve_hour_cases. fold (hour12 h). rewrite andb_false_r.
  split; [reflexivity|]. split; [reflexivity|].
  apply (tables_respected_app _ _ [(Tube, 6, Rd)]); reflexivity.
Qed.

Lemma Step5_showTime_matches_clock_witness :
  Step5.tube (exec (Step5.showTime 13 5 9) boot)
  = digit (exec (Clock.showTime (Clock.Config true false true) 13 5 9) boot).
Proof.
  refine (proj1 (Step5_showTime_matches_clock false 13 5 9 boot eq_refl eq_refl _ _ _));
    split; discriminate.
Defined.

(** ** The single-tube sketches *)

Lemma emits_emits e1 e2 st : emits e2 (emits e1 st) = emits (e1 ++ e2) st.
Proof. unfold emits. cbn. rewrite <- app_assoc. reflexivity. Qed.

Lemma writeByte_run b st :
  0 <= b <= 255 -> writeByte b st = (tt, emits (shown b) st).
Proof.
  intros H. unfold writeByte. rewrite Z.mod_small by lia.
  cbv -[app]. rewrite <- !app_assoc. reflexivity.
Qed.

Lemma displayDigit_run d st :
  0 <= d <= 9 -> Step4.displayDigit d st = (tt, emits (shown (seg d)) st).
Proof.
  intros H. destruct (segments_digit d H) as (_ & _ & B & V & R).
  unfold Step4.displayDigit. rewrite run_bind, load_in by exact B.
  cbn [fst snd]. rewrite V. apply writeByte_run. exact R.
Qed.

Lemma pause_run st : Step4.pause st = (tt, emits (shown 0) st).
Proof. unfold Step4.pause, Step4.displayOff. apply (writeByte_run 0). lia. Qed.

(** X15.  The single-tube clock shows a time of day (hour 0 to 23, minute
    0 to 59) as five glyphs, each followed by a blank, each sent with its
    own latch pulse: the two digits of the twelve-hour hour, the two digits
    of the minute, then 'A' when the hour of the day is below 12 and 'P'
    otherwise.  Nothing else in the machine changes, and no read leaves the
    table. *)
Theorem Step4_showTime_sequence hr mi st :
  0 <= hr <= 23 -> 0 <= mi <= 59 ->
  Step4.showTime hr mi st
  = (tt, emits (concat (map shown
                  [seg (hour12 hr ÷ 10); 0; seg (Z.rem (hour12 hr) 10); 0;
                   seg (mi ÷ 10); 0; seg (Z.rem mi 10); 0;
                   (if hr <? 12 then eval (Clock.alpha "A") st
                    else eval (Clock.alpha "P") st); 0])) st).
Proof.
  intros Hh Hm.
  assert (0 <= hour12 hr <= 99) as Hdh.
  { unfold hour12. destruct (hr =? 0); [lia|]. destruct (12 <? hr) eqn:E; [lia|lia]. }
  destruct (split_digits _ Hdh) as [H1 H2].
  destruct (split_digits mi ltac:(lia)) as [M1 M2].
  unfold Step4.showTime, Step4.FORMAT_12HR, Step4.DISPLAY_AMPM.
  rewrite twelve_hour_cases. fold (hour12 hr). cbn [andb].
  rewrite !glyph_alpha.
  repeat (rewrite run_bind;
          first [ rewrite displayDigit_run by assumption | rewrite pause_run ];
          cbn [fst snd]; rewrite ?emits_emits).
  destruct (hr <? 12).
  - rewrite (writeByte_run (bin "01110111")) by (split; discriminate).
    cbn [snd]. rewrite !emits_emits. reflexivity.
  - rewrite (writeByte_run (bin "00110111")) by (split; discriminate).
    cbn [snd]. rewrite !emits_emits. reflexivity.
Qed.

Lemma Step4_showTime_sequence_witness :
  out (exec (Step4.showTime 12 5) boot)
  = concat (map shown [bin "01000001"; 0; bin "10110011"; 0; bin "11100111"; 0;
                       bin "11110100"; 0; bin "00110111"; 0]).
Proof.
  unfold exec. rewrite (Step4_showTime_sequence 12 5 boot); [reflexivity | |];
    split; discriminate.
Defined.

(** X16.  [displayDigit] reads its ten-entry table unchecked.  For a digit
    from 0 to 9 it sends the pattern [alpha] has for that digit's character
    and a latch pulse; for any other argument it reads outside the table,
    and sends whatever byte lies there. *)
Theorem displayDigit_bounds d st :
  Step4.displayDigit d st
  = if (0 <=? d) && (d <=? 9)
    then (tt, emits (shown (eval (Clock.alpha (digit_char d)) st)) st)
    else (tt, emits (shown (outside st Segments d mod 256))
                (flag (Segments, d, Rd) st)).
Proof.
  destruct ((0 <=? d) && (d <=? 9)) eqn:E.
  - apply andb_true_iff in E as [E1 E2]. apply Z.leb_le in E1, E2.
    rewrite displayDigit_run by lia. rewrite glyph_alpha.
    destruct (digit_char_facts d ltac:(lia)) as [-> _]. reflexivity.
  - unfold Step4.displayDigit. rewrite run_bind. unfold load.
    replace (in_bounds Step4.segments d) with false.
    + cbn [fst snd]. cbv -[app Z.modulo]. rewrite <- !app_assoc. reflexivity.
    + symmetry. unfold in_bounds. change (Z.of_nat (length Step4.segments)) with 10.
      apply andb_false_iff in E as [E|E]; [rewrite E; reflexivity|].
      apply Z.leb_gt in E. apply andb_false_iff. right. apply Z.ltb_ge. lia.
Qed.

Lemma below_256 (P : nat -> bool) :
  forallb P (seq 0 256) = true -> forall p, 0 <= p <= 255 -> P (Z.to_nat p) = true.
Proof.
  intros H p Hp. rewrite forallb_forall in H. apply H. apply in_seq. lia.
Qed.

Lemma bit_cases i :
  0 <= i < 8 -> In i [0; 1; 2; 3; 4; 5; 6; 7].
Proof. intros H. cbn. lia. Qed.

(** X17.  The walking pattern of the TLC5916 test is an eight-bit rotation:
    for a pattern from 0 to 255, one pass of the loop sends the pattern
    itself with a latch pulse and replaces it by a value from 0 to 255
    whose bit i+1 (modulo 8) is bit i of the old one; after eight passes
    the pattern is back where it started. *)
Theorem TLC5916_pattern_rotates p st :
  0 <= p <= 255 ->
  TLC5916.loop p st = (TLC5916.advance p, emits (shown p) st)
  /\ 0 <= TLC5916.advance p <= 255
  /\ (forall i, 0 <= i < 8 ->
        Z.testbit (TLC5916.advance p) ((i + 1) mod 8) = Z.testbit p i)
  /\ Nat.iter 8 TLC5916.advance p = p.
Proof.
  intros Hp. split.
  - unfold TLC5916.loop. rewrite run_bind, writeByte_run by exact Hp. reflexivity.
  - pose proof (below_256
      (fun n => let q := Z.of_nat n in
         (0 <=? TLC5916.advance q) && (TLC5916.advance q <=? 255)
         && forallb (fun i => Bool.eqb (Z.testbit (TLC5916.advance q) ((i + 1) mod 8))
                                       (Z.testbit q i)) [0; 1; 2; 3; 4; 5; 6; 7]
         && (Nat.iter 8 TLC5916.advance q =? q))
      eq_refl p Hp) as H.
    cbv beta zeta in H. rewrite Z2Nat.id in H by lia.
    apply andb_true_iff in H as [H H8]. apply andb_true_iff in H as [H Hb].
    apply andb_true_iff in H as [H0 H1].
    apply Z.leb_le in H0, H1. apply Z.eqb_eq in H8.
    split; [lia|]. split; [|exact H8].
    intros i Hi. rewrite forallb_forall in Hb.
    apply Bool.eqb_prop. apply Hb. apply bit_cases. exact Hi.
Qed.

Lemma TLC5916_pattern_rotates_witness :
  TLC5916.loop (bin "11110000") boot = (bin "11100001", emits (shown (bin "11110000")) boot)
  /\ Nat.iter 8 TLC5916.advance (bin "11110000") = bin "11110000".
Proof.
  pose proof (TLC5916_pattern_rotates (bin "11110000") boot
                ltac:(split; discriminate)) as (H1 & _ & _ & H8).
  exact (conj H1 H8).
Defined.

(** X18.  The Step1 toggle is the eight-bit complement: for a byte p the
    new pattern is 255 - p, again a byte, every one of its eight bits is
    the opposite of the old one, and toggling twice gives p back.  A pass
    of the loop sends the current pattern with a latch pulse. *)
Theorem Step1_pattern_complements p st :
  0 <= p <= 255 ->
  Step1.loop p st = (Step1.invert p, emits (shown p) st)
  /\ Step1.invert p = 255 - p
  /\ (forall i, 0 <= i < 8 -> Z.testbit (Step1.invert p) i = negb (Z.testbit p i))
  /\ Step1.invert (Step1.invert p) = p.
Proof.
  intros Hp. split.
  - unfold Step1.loop. rewrite run_bind, writeByte_run by exact Hp. reflexivity.
  - pose proof (below_256
      (fun n => let q := Z.of_nat n in
         (Step1.invert q =? 255 - q)
         && forallb (fun i => Bool.eqb (Z.testbit (Step1.invert q) i)
                                       (negb (Z.testbit q i))) [0; 1; 2; 3; 4; 5; 6; 7]
         && (Step1.invert (Step1.invert q) =? q))
      eq_refl p Hp) as H.
    cbv beta zeta in H. rewrite Z2Nat.id in H by lia.
    apply andb_true_iff in H as [H H2]. apply andb_true_iff in H as [H0 Hb].
    apply Z.eqb_eq in H0, H2.
    split; [exact H0|]. split; [|exact H2].
    intros i Hi. rewrite forallb_forall in Hb.
    apply Bool.eqb_prop. apply Hb. apply bit_cases. exact Hi.
Qed.

Lemma Step1_pattern_complements_witness :
  Step1.invert Step1.pattern0 = 255 - Step1.pattern0.
Proof.
  refine (proj1 (proj2 (Step1_pattern_complements Step1.pattern0 boot _))).
  split; discriminate.
Defined.

Lemma emits_nil st : emits [] st = st.
Proof. destruct st. unfold emits. cbn. rewrite app_nil_r. reflexivity. Qed.

Lemma emits_emit e l st : emits l (emit e st) = emits (e :: l) st.
Proof. unfold emits, emit. cbn. rewrite <- app_assoc. reflexivity. Qed.

Lemma ramp_up p k n :
  forall i st,
    for_up_from n i (fun b => analogWrite p b;; delay k) st
    = (tt, emits (map (EvAnalog p) (up_from n i)) st).
Proof.
  induction n as [|n IH]; intros i st; cbn [for_up_from up_from map].
  - rewrite emits_nil. reflexivity.
  - rewrite !run_bind. cbn [analogWrite delay mret M_ret fst snd].
    rewrite IH, emits_emit. reflexivity.
Qed.

Lemma ramp_down p k n :
  forall i st,
    for_down_from n i (fun b => analogWrite p b;; delay k) st
    = (tt, emits (map (EvAnalog p) (down_from n i)) st).
Proof.
  induction n as [|n IH]; intros i st; cbn [for_down_from down_from map].
  - rewrite emits_nil. reflexivity.
  - rewrite !run_bind. cbn [analogWrite delay mret M_ret fst snd].
    rewrite IH, emits_emit. reflexivity.
Qed.

(** X19.  One pass of the Step2 loop writes 511 duty values to the
    output-enable pin and nothing else: 0, 1, ..., 254 and then 255, 254,
    ..., 0.  Every value is between 0 and 255 and each differs from the one
    before by exactly one, so the sweep has no jump; it starts and ends at
    0. *)
Theorem Step2_sweep st :
  Step2.loop st
  = (tt, emits (map (EvAnalog OE) (up_from 255 0 ++ down_from 256 255)) st)
  /\ smooth (up_from 255 0 ++ down_from 256 255) = true
  /\ forallb (fun v => (0 <=? v) && (v <=? 255)) (up_from 255 0 ++ down_from 256 255) = true
  /\ length (up_from 255 0 ++ down_from 256 255) = 511%nat
  /\ head (up_from 255 0 ++ down_from 256 255) = Some 0
  /\ last (up_from 255 0 ++ down_from 256 255) = Some 0.
Proof.
  split; [|repeat split; vm_compute; reflexivity].
  unfold Step2.loop, for_upto, for_downto.
  rewrite run_bind, ramp_up. cbn [fst snd]. rewrite ramp_down, emits_emits.
  rewrite map_app. reflexivity.
Qed.
